(** * layers.py: a shallow embedding of the layer decorator and its catalog

    The program is a thin wrapper over a computation-graph library.  Graph
    nodes are data (an expression tree of the operations the layer functions
    request), the Python functions are Rocq functions that build such trees,
    and the stateful parts (the default graph's variable store and
    collections, the [Layer] and template objects) are threaded explicitly. *)

From Stdlib Require Import ZArith List Ascii String Bool Lia.
From Stdlib Require Import Floats.SpecFloat.
From stdpp Require Import base option list gmap strings pretty.

Open Scope string_scope.
Open Scope list_scope.
Open Scope Z_scope.

(* ------------------------------------------------------------------ *)
(** ** float32 scalars *)

Module F32.

(** [tf.float32] is IEEE binary32: 24 bits of mantissa, infinities at
    exponent 128. *)
Definition prec : Z := 24.
Definition emax : Z := 128.

Definition f32 := spec_float.

Definition ltb : f32 -> f32 -> bool := SFltb.

Definition zero : f32 := S754_zero false.
Definition one : f32 := S754_finite false 8388608 (-23).
Definition inf : f32 := S754_infinity false.

(** The float32 a Python integer converts to. *)
Definition of_Z (z : Z) : f32 := binary_normalize prec emax z 0 false.


End F32.

Abbreviation f32 := F32.f32.

(* ------------------------------------------------------------------ *)
(** ** Graph nodes *)

(** [TensorShape]: [None] is an unknown rank, a [None] dimension is an
    unknown size. *)
Definition static_shape := option (list (option Z)).

(** The operations the layer functions put into the graph.  A tensor is the
    expression tree of the node that produces it.  Framework calls receive
    some Python arguments unchanged, so Python values are part of the
    trees. *)
Inductive tensor : Type :=
| Placeholder (name : string) (shape : static_shape)
| Const (v : f32)
| PhaseVar                                   (* the module's [_phase] *)
| VarRead (name : string) (shape : list Z)   (* a [tf.get_variable] result *)
| Identity (t : tensor)
| Mul (a b : tensor)
| Add (a b : tensor)
| Cond (pred a b : tensor)
| NnDropout (t keep_prob : tensor)
| Shape (t : tensor)
| SliceFirst2 (t : tensor)                   (* [t[:2]] *)
| RandomUniform (shape : tensor)
| Floor (t : tensor)
| Reciprocal (t : tensor)
| ExpandDimsLast (t : tensor)                (* [axis=-1] *)
| Reshape (t : tensor) (shape : list Z)
| ReshapeTo (t shape : tensor)
| MatMul (a b : tensor)
| Relu (t : tensor)
| Tanh (t : tensor)
| SparseSoftmaxCrossEntropy (logits labels : tensor)
| NotEqual (a b : tensor)
| ZerosLike (t : tensor)
| CastFloat32 (t : tensor)
| ReduceMean (t : tensor)
| ReduceSumAxis1 (t : tensor)
| Div (a b : tensor)
| OfPython (v : pyval)                       (* a converted Python value *)
| DynamicRnnOutputs (cell : rnn_cell) (inputs : tensor) (sequence_length initial_state : pyval)
| DynamicRnnState (cell : rnn_cell) (inputs : tensor) (sequence_length initial_state : pyval)
| RnnDecoderOutputs (cell : rnn_cell) (decoder_fn sequence_length : pyval)
| RnnDecoderState (cell : rnn_cell) (decoder_fn sequence_length : pyval)
with rnn_cell : Type :=
| BasicRNNCell (hidden_dims : pyval) (act : pyval)
| UserCell (name : string)
| DropoutWrapper (cell : pyval) (input_keep_prob output_keep_prob : tensor)
with pyval : Type :=
| PNone
| PBool (b : bool)
| PInt (z : Z)
| PFloat (x : f32)        (* a Python number, as the float32 it converts to *)
| PStr (s : string)
| PTensor (t : tensor)
| PCell (c : rnn_cell)
| PFunc (name : string).

#[export] Instance pyval_inhabited : Inhabited pyval := populate PNone.


(** [_global_keep_prob], after [tf.convert_to_tensor]. *)
Definition _global_keep_prob_tensor (keep_prob : tensor) : tensor :=
  Cond PhaseVar keep_prob (Add (Mul keep_prob (Const F32.zero)) (Const F32.one)).


(* ------------------------------------------------------------------ *)
(** ** Static shapes

    [x.get_shape()] as the framework infers it for the operations above.
    The program reads only the rank of a shape ([_rank]) and, in
    [dense_layer], its last dimension. *)

Definition broadcast_dim (a b : option Z) : option Z :=
  match a, b with
  | Some 1, d | d, Some 1 => d
  | Some x, _ => Some x
  | None, d => d
  end.

(** Broadcasting aligns shapes at their last dimension; both lists are
    reversed here. *)
Fixpoint broadcast_rev (a b : list (option Z)) : list (option Z) :=
  match a, b with
  | [], r | r, [] => r
  | x :: a', y :: b' => broadcast_dim x y :: broadcast_rev a' b'
  end.

Definition broadcast (a b : static_shape) : static_shape :=
  match a, b with
  | Some da, Some db => Some (rev (broadcast_rev (rev da) (rev db)))
  | _, _ => None
  end.

Fixpoint cell_output_size (c : rnn_cell) : option Z :=
  match c with
  | BasicRNNCell (PInt h) _ => Some h
  | BasicRNNCell _ _ | UserCell _ => None
  | DropoutWrapper (PCell c) _ _ => cell_output_size c
  | DropoutWrapper _ _ _ => None
  end.

Fixpoint get_shape (t : tensor) : static_shape :=
  match t with
  | Placeholder _ s => s
  | Const _ | PhaseVar | ReduceMean _ => Some []
  | VarRead _ s => Some (map Some s)
  | Identity t | Floor t | Reciprocal t | Relu t | Tanh t
  | ZerosLike t | CastFloat32 t | NnDropout t _ => get_shape t
  | Mul a b | Add a b | Div a b | NotEqual a b => broadcast (get_shape a) (get_shape b)
  | ReduceSumAxis1 t =>
      match get_shape t with
      | Some (b :: _ :: r) => Some (b :: r)
      | _ => None
      end
  | OfPython _ => None
  | Cond _ a _ => get_shape a
  | Shape t => Some [option_map (fun d => Z.of_nat (length d)) (get_shape t)]
  | SliceFirst2 t =>
      match get_shape t with
      | Some [Some n] => Some [Some (Z.min n 2)]
      | _ => Some [None]
      end
  | RandomUniform s =>
      match s with
      | SliceFirst2 (Shape t) => option_map (take 2) (get_shape t)
      | Shape t => get_shape t
      | _ => match get_shape s with
             | Some [Some n] => Some (repeat None (Z.to_nat n))
             | _ => None
             end
      end
  | ExpandDimsLast t => option_map (fun d => d ++ [Some 1]) (get_shape t)
  | Reshape _ dims => Some (map (fun d => if d =? -1 then None else Some d) dims)
  | ReshapeTo _ s =>
      match s with
      | Shape t => get_shape t
      | _ => match get_shape s with
             | Some [Some n] => Some (repeat None (Z.to_nat n))
             | _ => None
             end
      end
  | MatMul a b =>
      match get_shape a, get_shape b with
      | Some [m; _], Some [_; n] => Some [m; n]
      | _, _ => Some [None; None]
      end
  | SparseSoftmaxCrossEntropy _ labels => get_shape labels
  | DynamicRnnOutputs c x _ _ =>
      match get_shape x with
      | Some (b :: t :: _) => Some [b; t; cell_output_size c]
      | _ => Some [None; None; cell_output_size c]
      end
  | DynamicRnnState c x _ _ =>
      match get_shape x with
      | Some (b :: _) => Some [b; cell_output_size c]
      | _ => Some [None; cell_output_size c]
      end
  | RnnDecoderOutputs c _ _ => Some [None; None; cell_output_size c]
  | RnnDecoderState c _ _ => Some [None; cell_output_size c]
  end.

(* ------------------------------------------------------------------ *)
(** ** Python values and exceptions *)

Inductive exn_type :=
| AssertionError | NotImplementedError | ValueError | TypeError | IndexError
| DanglingReference.   (* not a Python exception: a reference the world does not hold *)

(** An exception: its class and the first argument given where it is raised
    (empty when raised without arguments).  The exception class survives the
    template's re-raise; the text that the template appends to the first
    argument (the place where the template was defined) is not represented. *)
Record exn := Exn { exn_class : exn_type; exn_arg0 : string }.

Inductive result (A : Type) : Type :=
| Ok (a : A)
| Raise (e : exn).
Arguments Ok {A} a.
Arguments Raise {A} e.

Definition is_ok {A} (r : result A) : bool :=
  match r with Ok _ => true | Raise _ => false end.

Definition raises {A} (r : result A) (c : exn_type) : Prop :=
  match r with Ok _ => False | Raise e => exn_class e = c end.


(** [bool(v)] of a Python value; a graph tensor refuses the conversion. *)
Definition truthy (v : pyval) : result bool :=
  match v with
  | PNone => Ok false
  | PBool b => Ok b
  | PInt z => Ok (negb (z =? 0))
  | PFloat x => Ok (negb (SFeqb x F32.zero))
  | PStr s => Ok (negb (String.eqb s ""))
  | PTensor _ => Raise (Exn TypeError "Using a tf.Tensor as a Python bool is not allowed.")
  | PCell _ | PFunc _ => Ok true
  end.

(** [tf.convert_to_tensor(v, dtype=tf.float32)]. *)
Definition convert_to_tensor (v : pyval) : result tensor :=
  match v with
  | PFloat x => Ok (Const x)
  | PInt z => Ok (Const (F32.of_Z z))
  | PBool b => Ok (Const (if b then F32.one else F32.zero))
  | PTensor t => Ok t
  | PNone => Raise (Exn ValueError "None values not supported.")
  | PStr _ | PCell _ | PFunc _ => Raise (Exn TypeError "Expected float32")
  end.

(* ------------------------------------------------------------------ *)
(** ** The default graph and the effects of a layer function *)

(** A variable made by [tf.get_variable]: it is trainable and is added to
    the trainable-variables collection. *)
Record variable := Var { var_op_name : string; var_shape : list Z }.

(** [var.name]: the name of the variable's output. *)
Definition var_name (v : variable) : string := var_op_name v +:+ ":0".

Record Graph := mkGraph {
  variable_scopes : list string;          (* scopes opened in the variable store *)
  trainable_variables : list variable;    (* in creation order *)
  collections : list (pyval * pyval);     (* [tf.add_to_collection] *)
  summaries : list (string * tensor);     (* [tf.summary.scalar] *)
  logged : list string                    (* [tf.logging.info] *)
}.

Definition empty_graph : Graph := mkGraph [] [] [] [] [].

Definition add_variable (v : variable) (g : Graph) : Graph :=
  mkGraph (variable_scopes g) (trainable_variables g ++ [v])
          (collections g) (summaries g) (logged g).

Definition add_collection (key item : pyval) (g : Graph) : Graph :=
  mkGraph (variable_scopes g) (trainable_variables g)
          (collections g ++ [(key, item)]) (summaries g) (logged g).

Definition add_summaries (new : list (string * tensor)) (g : Graph) : Graph :=
  mkGraph (variable_scopes g) (trainable_variables g)
          (collections g) (summaries g ++ new) (logged g).

Definition add_logged (line : string) (g : Graph) : Graph :=
  mkGraph (variable_scopes g) (trainable_variables g)
          (collections g) (summaries g) (logged g ++ [line]).

(** What a layer function asks of the framework besides building nodes. *)
Inductive prog (A : Type) : Type :=
| Ret (a : A)
| Throw (e : exn)
| GetVariable (name : string) (shape : list Z) (k : tensor -> prog A)
| AddToCollection (key : pyval) (item : pyval) (k : prog A)
| SummaryScalar (name : string) (t : tensor) (k : prog A).
Arguments Ret {A} a.
Arguments Throw {A} e.
Arguments GetVariable {A} name shape k.
Arguments AddToCollection {A} key item k.
Arguments SummaryScalar {A} name t k.

Fixpoint pbind {A B} (m : prog A) (f : A -> prog B) : prog B :=
  match m with
  | Ret a => f a
  | Throw e => Throw e
  | GetVariable n s k => GetVariable n s (fun t => pbind (k t) f)
  | AddToCollection key item k => AddToCollection key item (pbind k f)
  | SummaryScalar n t k => SummaryScalar n t (pbind k f)
  end.

Definition lift {A} (r : result A) : prog A :=
  match r with Ok a => Ret a | Raise e => Throw e end.

Declare Scope prog_scope.
Delimit Scope prog_scope with prog.
Notation "x <- m ;; k" := (pbind m (fun x => k))
  (at level 100, m at next level, right associativity) : prog_scope.

Definition get_variable (name : string) (shape : list Z) : prog tensor :=
  GetVariable name shape Ret.
Definition add_to_collection (key item : pyval) : prog unit :=
  AddToCollection key item (Ret tt).

Definition scoped (scope name : string) : string :=
  if String.eqb scope "" then name else scope +:+ "/" +:+ name.

Definition find_variable (g : Graph) (full : string) : option variable :=
  List.find (fun v => String.eqb (var_op_name v) full) (trainable_variables g).

Definition shape_eqb (a b : list Z) : bool := bool_decide (a = b).

(** Running a layer function inside [tf.variable_scope(scope, reuse=reuse)].
    An exception leaves the graph as it was when it was raised. *)
Fixpoint run {A} (scope : string) (reuse : bool) (m : prog A) (g : Graph)
  : result A * Graph :=
  match m with
  | Ret a => (Ok a, g)
  | Throw e => (Raise e, g)
  | GetVariable name shape k =>
      let full := scoped scope name in
      match find_variable g full with
      | Some v =>
          if reuse then
            if shape_eqb shape (var_shape v)
            then run scope reuse (k (VarRead full (var_shape v))) g
            else (Raise (Exn ValueError ("Trying to share variable " +:+ full)), g)
          else (Raise (Exn ValueError ("Variable " +:+ full +:+ " already exists, disallowed.")), g)
      | None =>
          if reuse then
            (Raise (Exn ValueError ("Variable " +:+ full +:+ " does not exist")), g)
          else
            run scope reuse (k (VarRead full shape)) (add_variable (Var full shape) g)
      end
  | AddToCollection key item k =>
      run scope reuse k (add_collection key item g)
  | SummaryScalar name t k =>
      run scope reuse k (add_summaries [(name, t)] g)
  end.

(* ------------------------------------------------------------------ *)
(** ** Calling a Python function with [*args] and [**kwargs] *)

(** The parameters after [tensor]: name and default ([None]: required). *)
Definition signature := list (string * option pyval).

Definition arguments : Type := gmap string pyval * gmap string pyval.

(** Binds positional arguments, then keywords, then defaults; returns the
    bound parameters and the keywords left for [**opts].  A call that does
    not fit raises TypeError; the texts of these errors are shortened. *)
Fixpoint bind_params (params : signature) (args : list pyval)
    (kwargs : gmap string pyval) : result arguments :=
  match params with
  | [] =>
      match args with
      | [] => Ok (∅, kwargs)
      | _ :: _ => Raise (Exn TypeError "too many positional arguments")
      end
  | (p, d) :: ps =>
      match args with
      | a :: args' =>
          match kwargs !! p with
          | Some _ => Raise (Exn TypeError ("got multiple values for argument " +:+ p))
          | None =>
              match bind_params ps args' kwargs with
              | Ok (b, opts) => Ok (<[p:=a]> b, opts)
              | Raise e => Raise e
              end
          end
      | [] =>
          match kwargs !! p, d with
          | Some v, _ | None, Some v =>
              match bind_params ps [] (delete p kwargs) with
              | Ok (b, opts) => Ok (<[p:=v]> b, opts)
              | Raise e => Raise e
              end
          | None, None =>
              Raise (Exn TypeError ("missing required positional argument " +:+ p))
          end
      end
  end.

(** [f(x, *args, **kwargs)] for [def f(tensor, <params>, **opts)], or
    without [**opts] when [var_kw] is false. *)
Definition bind_call (params : signature) (var_kw : bool)
    (args : list pyval) (kwargs : gmap string pyval) : result arguments :=
  match kwargs !! "tensor" with
  | Some _ => Raise (Exn TypeError "got multiple values for argument tensor")
  | None =>
      match bind_params params args kwargs with
      | Ok (b, opts) =>
          if var_kw || bool_decide (dom opts = (∅ : gset string)) then Ok (b, opts)
          else Raise (Exn TypeError "got an unexpected keyword argument")
      | Raise e => Raise e
      end
  end.

(** A decorated function: its [__name__] and its body applied to
    [(x, *args, **kwargs)]. *)
Record layer_fn := LayerFn {
  fn_name : string;
  fn_call : tensor -> list pyval -> gmap string pyval -> prog tensor
}.

Definition def (name : string) (params : signature) (var_kw : bool)
    (body : tensor -> gmap string pyval -> gmap string pyval -> prog tensor)
  : layer_fn :=
  LayerFn name (fun tensor args kwargs =>
    match bind_call params var_kw args kwargs with
    | Ok (b, opts) => body tensor b opts
    | Raise e => Throw e
    end).

(* ------------------------------------------------------------------ *)
(** ** Module-level helpers *)

Definition _rank (x : tensor) : result Z :=
  match get_shape x with
  | Some dims => Ok (Z.of_nat (length dims))
  | None => Raise (Exn ValueError "Cannot take the length of Shape with unknown rank.")
  end.

Definition _apply_dropout_mask (tensor_shape keep_prob : tensor) (normalize : bool)
  : tensor :=
  let random_tensor := Add keep_prob (RandomUniform tensor_shape) in
  let binary_mask := Floor random_tensor in
  if normalize then Mul (Reciprocal keep_prob) binary_mask else binary_mask.

Definition _global_keep_prob (keep_prob : pyval) : result tensor :=
  match convert_to_tensor keep_prob with
  | Ok keep_prob => Ok (_global_keep_prob_tensor keep_prob)
  | Raise e => Raise e
  end.

(** A Python value handed to a framework operation that expects a tensor. *)
Definition as_tensor (v : pyval) : result tensor :=
  match v with
  | PTensor t => Ok t
  | PNone => Raise (Exn ValueError "None values not supported.")
  | PCell _ | PFunc _ => Raise (Exn TypeError "Failed to convert object to Tensor.")
  | v => Ok (OfPython v)
  end.

(** ["{}".format(v)] *)
Definition py_format (v : pyval) : string :=
  match v with
  | PStr s => s
  | PInt z => pretty z
  | PBool true => "True"
  | PBool false => "False"
  | PNone => "None"
  | _ => "<object>"
  end.

(** [keep_prob < 1.0] used as a condition. *)
Definition lt_one (v : pyval) : result bool :=
  match v with
  | PFloat x => Ok (F32.ltb x F32.one)
  | PInt z => Ok (z <? 1)
  | PBool b => Ok (negb b)
  | PTensor _ => Raise (Exn TypeError "Using a tf.Tensor as a Python bool is not allowed.")
  | _ => Raise (Exn TypeError "'<' not supported")
  end.

Definition is_none (v : pyval) : bool :=
  match v with PNone => true | _ => false end.

(* ------------------------------------------------------------------ *)
(** ** The layer functions *)

Local Open Scope prog_scope.

Definition identity_layer_func : layer_fn :=
  def "identity_layer" [] true (fun tensor _ opts =>
    let out := Identity tensor in
    Ret out).

Definition dropout_layer_params : signature := [("keep_prob", Some (PFloat F32.one))].

Definition dropout_layer_func : layer_fn :=
  def "dropout_layer" dropout_layer_params true (fun tensor b opts =>
    keep_prob <- lift (_global_keep_prob (b !!! "keep_prob")) ;;
    let out := NnDropout tensor keep_prob in
    Ret out).

Definition word_dropout_layer_params : signature :=
  [("keep_prob", Some (PFloat F32.one))].

Definition word_dropout_layer_func : layer_fn :=
  def "word_dropout_layer" word_dropout_layer_params true (fun tensor b opts =>
    keep_prob <- lift (_global_keep_prob (b !!! "keep_prob")) ;;
    rank <- lift (_rank tensor) ;;
    if negb (rank =? 3) then Throw (Exn AssertionError "Use embedding lookup layer") else
    let binary_mask := _apply_dropout_mask (SliceFirst2 (Shape tensor)) keep_prob false in
    let binary_mask := ExpandDimsLast binary_mask in
    let out := Mul tensor binary_mask in
    Ret out).

Definition relu_layer_func : layer_fn :=
  def "relu_layer" [] false (fun tensor _ _ => Ret (Relu tensor)).

Definition tanh_layer_func : layer_fn :=
  def "tanh_layer" [] false (fun tensor _ _ => Ret (Tanh tensor)).

Definition cross_entropy_layer_params : signature := [("target", None)].

Definition cross_entropy_layer_func : layer_fn :=
  def "cross_entropy_layer" cross_entropy_layer_params true (fun tensor b opts =>
    rank <- lift (_rank tensor) ;;
    target <- lift (as_tensor (b !!! "target")) ;;
    let target := if rank >? 1 then Reshape target [-1] else target in
    let cross_entropy := SparseSoftmaxCrossEntropy tensor target in
    let mask := CastFloat32 (NotEqual target (ZerosLike target)) in
    let out := Mul cross_entropy mask in
    Ret out).


Definition conv1d_layer_params : signature := [("dilation_rate", Some (PInt 1))].

Definition conv1d_layer_func : layer_fn :=
  def "conv1d_layer" conv1d_layer_params true (fun tensor _ _ =>
    Throw (Exn NotImplementedError "")).

Definition residual_layer_func : layer_fn :=
  def "residual_layer" [] true (fun tensor _ _ =>
    Throw (Exn NotImplementedError "")).

Definition highway_layer_func : layer_fn :=
  def "highway_layer" [] true (fun tensor _ _ =>
    Throw (Exn NotImplementedError "")).

(** [int(tensor.get_shape()[-1])] *)
Definition last_dim (x : tensor) : result Z :=
  match get_shape x with
  | Some dims =>
      match last dims with
      | Some (Some d) => Ok d
      | Some None => Raise (Exn TypeError "__int__ returned non-int (type NoneType)")
      | None => Raise (Exn IndexError "list index out of range")
      end
  | None => Raise (Exn TypeError "__int__ returned non-int (type NoneType)")
  end.

(** An integer used as a dimension of an initial value. *)
Definition as_dim (v : pyval) : result Z :=
  match v with
  | PInt h => Ok h
  | _ => Raise (Exn TypeError "Expected int32")
  end.

Definition dense_layer_func : layer_fn :=
  def "dense_layer" [("hidden_dims", None); ("weight", Some PNone); ("bias", Some PNone)]
    true (fun tensor b opts =>
    let original_tensor_shape := Shape tensor in
    in_dim <- lift (last_dim tensor) ;;
    rank <- lift (_rank tensor) ;;
    let tensor := if rank >? 2 then Reshape tensor [-1; in_dim] else tensor in
    let name := default (PStr "") (opts !! "name") in
    weight <-
      (if is_none (b !!! "weight") then
         hidden_dims <- lift (as_dim (b !!! "hidden_dims")) ;;
         get_variable (py_format name +:+ "_dense_W") [in_dim; hidden_dims]
       else lift (as_tensor (b !!! "weight"))) ;;
    bias <-
      (if is_none (b !!! "bias") then
         hidden_dims <- lift (as_dim (b !!! "hidden_dims")) ;;
         get_variable (py_format name +:+ "_dense_b") [hidden_dims]
       else lift (as_tensor (b !!! "bias"))) ;;
    let out := Add (MatMul tensor weight) bias in
    let out := if rank >? 2 then ReshapeTo out original_tensor_shape else out in
    Ret out).

(** *** The recurrent layer

    [tf.nn.dynamic_rnn] calls the cell inside the scope ["rnn"]; a
    [BasicRNNCell] asks for its weights and biases there.  The variables of
    a cell supplied by the caller are the caller's and are not modelled. *)
Fixpoint cell_variables (c : rnn_cell) (depth : Z) : list (string * list Z) :=
  match c with
  | BasicRNNCell (PInt h) _ =>
      [("rnn/basic_rnn_cell/weights", [depth + h; h]);
       ("rnn/basic_rnn_cell/biases", [h])]
  | BasicRNNCell _ _ | UserCell _ => []
  | DropoutWrapper (PCell c) _ _ => cell_variables c depth
  | DropoutWrapper _ _ _ => []
  end.

Fixpoint get_variables (vs : list (string * list Z)) : prog unit :=
  match vs with
  | [] => Ret tt
  | (n, s) :: vs => _ <- get_variable n s ;; get_variables vs
  end.

Definition input_depth (x : tensor) : result Z :=
  match get_shape x with
  | Some (_ :: _ :: Some d :: _) => Ok d
  | _ => Raise (Exn ValueError "Input size (depth of inputs) must be accessible via shape inference")
  end.

Definition dynamic_rnn (cell : pyval) (inputs : tensor)
    (sequence_length initial_state : pyval) : prog (tensor * tensor) :=
  match cell with
  | PCell c =>
      depth <- lift (input_depth inputs) ;;
      _ <- get_variables (cell_variables c depth) ;;
      Ret (DynamicRnnOutputs c inputs sequence_length initial_state,
           DynamicRnnState c inputs sequence_length initial_state)
  | _ => Throw (Exn TypeError "cell must be an instance of RNNCell")
  end.

(** Modelled from the spec: [myseq2seq.dynamic_rnn_decoder] is not among the
    sources, and the spec leaves recurrent unrolling to the framework; its
    results are kept as nodes that record the arguments it was given. *)
Definition dynamic_rnn_decoder (cell decoder_fn sequence_length : pyval)
  : prog (tensor * tensor) :=
  match cell with
  | PCell c =>
      Ret (RnnDecoderOutputs c decoder_fn sequence_length,
           RnnDecoderState c decoder_fn sequence_length)
  | _ => Throw (Exn TypeError "cell must be an instance of RNNCell")
  end.

Definition recurrent_layer_params : signature :=
  [("cell", Some PNone); ("hidden_dims", Some (PInt 128));
   ("sequence_length", Some PNone); ("decoder_fn", Some PNone);
   ("activation", Some (PFunc "tf.nn.tanh"));
   ("initializer", Some (PFunc "tf.orthogonal_initializer()"));
   ("initial_state", Some PNone); ("keep_prob", Some (PFloat F32.one));
   ("return_final_state", Some (PBool false));
   ("return_next_cell_input", Some (PBool true))].

(** The cell before any dropout: the one given, or a basic cell. *)
Definition recurrent_layer_base_cell (b : gmap string pyval) : pyval :=
  if is_none (b !!! "cell")
  then PCell (BasicRNNCell (b !!! "hidden_dims") (b !!! "activation"))
  else b !!! "cell".

(** The first part of [recurrent_layer]: the cell that is handed to the
    recurrence, wrapped for dropout when [keep_prob < 1.0]. *)
Definition recurrent_layer_cell (b : gmap string pyval) : prog pyval :=
  let cell := recurrent_layer_base_cell b in
  drop <- lift (lt_one (b !!! "keep_prob")) ;;
  if drop : bool then
    keep_prob <- lift (_global_keep_prob (b !!! "keep_prob")) ;;
    Ret (PCell (DropoutWrapper cell keep_prob keep_prob))
  else Ret cell.

Definition recurrent_layer_func : layer_fn :=
  def "recurrent_layer" recurrent_layer_params true (fun tensor b opts =>
    cell <- recurrent_layer_cell b ;;
    named <- lift (truthy (default PNone (opts !! "name"))) ;;
    _ <- (if named : bool
          then add_to_collection (default PNone (opts !! "name")) cell
          else Ret tt) ;;
    r <- (if is_none (b !!! "decoder_fn")
          then dynamic_rnn cell tensor (b !!! "sequence_length") (b !!! "initial_state")
          else dynamic_rnn_decoder cell (b !!! "decoder_fn") (b !!! "sequence_length")) ;;
    final <- lift (truthy (b !!! "return_final_state")) ;;
    if final : bool then Ret (snd r) else Ret (fst r)).

Local Close Scope prog_scope.

(* ------------------------------------------------------------------ *)
(** ** Templates *)

(** [s.split("/")[-1]] *)
Fixpoint after_last_slash (s : string) : option string :=
  match s with
  | EmptyString => None
  | String c r =>
      match after_last_slash r with
      | Some t => Some t
      | None => if Ascii.eqb c "/"%char then Some r else None
      end
  end.

Definition split_last (s : string) : string := default s (after_last_slash s).

Definition scope_opened (g : Graph) (name : string) : bool :=
  bool_decide (name ∈ variable_scopes g).

Definition indexed (prefix : string) (idx : nat) : string :=
  prefix +:+ "_" +:+ pretty idx.

(** The loop [while count(name_idx) > 0: idx += 1].  Among [fuel + 1]
    consecutive indices at most [fuel] are taken when [fuel] scopes were
    opened, so the search ends within [fuel] steps. *)
Fixpoint first_free_index (g : Graph) (prefix : string) (fuel idx : nat) : nat :=
  match fuel with
  | O => idx
  | S fuel =>
      if scope_opened g (indexed prefix idx)
      then first_free_index g prefix fuel (S idx)
      else idx
  end.

(** [_get_unique_variable_scope(prefix)] at the root scope. *)
Definition _get_unique_variable_scope (g : Graph) (prefix : string) : string :=
  if scope_opened g prefix
  then indexed prefix (first_free_index g prefix (length (variable_scopes g)) 1)
  else prefix.

Definition open_variable_subscope (g : Graph) (name : string) : Graph :=
  mkGraph (name :: variable_scopes g) (trainable_variables g)
          (collections g) (summaries g) (logged g).

(** The template object of [tf.make_template(name, func,
    create_scope_now_=True)]. *)
Record Template := mkTemplate {
  t_name : string;
  t_func : layer_fn;
  t_variable_scope : string;       (* [variable_scope.name] *)
  t_variables_created : bool       (* [_variables_created] *)
}.

Definition set_variables_created (t : Template) : Template :=
  mkTemplate (t_name t) (t_func t) (t_variable_scope t) true.

(** Calling a template.  The first call runs the function in the template's
    scope and, when it returns, records that the variables exist; later
    calls run it with [reuse=True] and refuse a new trainable variable.
    Scope names are taken to be names the graph accepts. *)
Definition template_call (t : Template) (x : tensor) (args : list pyval)
    (kwargs : gmap string pyval) (g : Graph) : result tensor * Template * Graph :=
  if t_variables_created t then
    match run (t_variable_scope t) true (fn_call (t_func t) x args kwargs) g with
    | (Ok out, g') =>
        if Nat.eqb (length (trainable_variables g)) (length (trainable_variables g'))
        then (Ok out, t, g')
        else (Raise (Exn ValueError
                "Trainable variable created when calling a template after the first time"),
              t, g')
    | (Raise e, g') => (Raise e, t, g')
    end
  else
    match run (t_variable_scope t) false (fn_call (t_func t) x args kwargs) g with
    | (Ok out, g') => (Ok out, set_variables_created t, g')
    | (Raise e, g') => (Raise e, t, g')
    end.

(* ------------------------------------------------------------------ *)
(** ** The [Layer] class made by the decorator *)

(** Instances and their templates are objects: the world holds them by
    reference, next to the default graph. *)
Record Layer := mkLayer {
  func : layer_fn;
  args : list pyval;
  kwargs : gmap string pyval;
  name : pyval;
  _template : nat;                 (* reference to the template object *)
  _unique_name : string;
  _summary_added : bool
}.

Definition with_summary_added (l : Layer) : Layer :=
  mkLayer (func l) (args l) (kwargs l) (name l) (_template l) (_unique_name l) true.

Record World := mkWorld {
  templates : list Template;
  layers : list Layer;
  graph : Graph;
  phase : bool                     (* the run-time value of [_phase] *)
}.

Definition empty_world : World := mkWorld [] [] empty_graph false.

Definition M (A : Type) : Type := World -> result A * World.

Definition mret {A} (a : A) : M A := fun w => (Ok a, w).
Definition mraise {A} (e : exn) : M A := fun w => (Raise e, w).
Definition mbind' {A B} (m : M A) (f : A -> M B) : M B :=
  fun w => match m w with
           | (Ok a, w') => f a w'
           | (Raise e, w') => (Raise e, w')
           end.

Declare Scope world_scope.
Delimit Scope world_scope with world.
Notation "x <- m ;; k" := (mbind' m (fun x => k))
  (at level 100, m at next level, right associativity) : world_scope.

Local Open Scope world_scope.

Definition get_layer (self : nat) : M Layer := fun w =>
  match layers w !! self with
  | Some l => (Ok l, w)
  | None => (Raise (Exn DanglingReference "layer"), w)
  end.

Definition get_template (ref : nat) : M Template := fun w =>
  match templates w !! ref with
  | Some t => (Ok t, w)
  | None => (Raise (Exn DanglingReference "template"), w)
  end.




Definition modify_graph (f : Graph -> Graph) : M unit := fun w =>
  (Ok tt, mkWorld (templates w) (layers w) (f (graph w)) (phase w)).

(** [tf.make_template(name, func, create_scope_now_=True)]: the scope is
    made unique and opened when the template is created. *)
Definition make_template (name : pyval) (f : layer_fn) : M nat := fun w =>
  match name with
  | PNone => (Raise (Exn ValueError "name cannot be None."), w)
  | PStr s =>
      let unique := _get_unique_variable_scope (graph w) s in
      (Ok (length (templates w)),
       mkWorld (templates w ++ [mkTemplate s f unique false]) (layers w)
               (open_variable_subscope (graph w) unique) (phase w))
  | _ => (Raise (Exn TypeError "unsupported operand type(s) for +"), w)
  end.

(** Template.__call__ on the template object [ref]. *)
Definition call_template (ref : nat) (x : tensor) (args : list pyval)
    (kwargs : gmap string pyval) : M tensor := fun w =>
  match templates w !! ref with
  | Some t =>
      let '(r, t', g') := template_call t x args kwargs (graph w) in
      (r, mkWorld (<[ref := t']> (templates w)) (layers w) g' (phase w))
  | None => (Raise (Exn DanglingReference "template"), w)
  end.

Module Layer.

Definition __init__ (func : layer_fn) (args : list pyval)
    (kwargs : gmap string pyval) : M nat :=
  let name := default (PStr (fn_name func)) (kwargs !! "name") in
  _template <- make_template name func ;;
  t <- get_template _template ;;
  let _unique_name := split_last (t_variable_scope t) in
  fun w =>
    (Ok (length (layers w)),
     mkWorld (templates w)
             (layers w ++ [mkLayer func args kwargs name _template _unique_name false])
             (graph w) (phase w)).

Definition template (self : nat) : M nat :=
  l <- get_layer self ;; mret (_template l).

Definition unique_name (self : nat) : M string :=
  l <- get_layer self ;; mret (_unique_name l).

Definition variable_scope_name (self : nat) : M string :=
  ref <- template self ;;
  t <- get_template ref ;;
  mret (t_variable_scope t).

Definition summary_added (self : nat) : M bool :=
  l <- get_layer self ;; mret (_summary_added l).

Definition str_dim (d : option Z) : string :=
  match d with Some n => pretty n | None => "?" end.

Fixpoint join_dims (ds : list (option Z)) : string :=
  match ds with
  | [] => ""
  | [d] => str_dim d
  | d :: ds => str_dim d +:+ ", " +:+ join_dims ds
  end.

(** [str(x.get_shape())] *)
Definition str_shape (s : static_shape) : string :=
  match s with
  | None => "<unknown>"
  | Some [d] => "(" +:+ str_dim d +:+ ",)"
  | Some ds => "(" +:+ join_dims ds +:+ ")"
  end.

Definition log_line (unique_name : string) (other out : tensor) : string :=
  "     " +:+ unique_name +:+ " shape " +:+ str_shape (get_shape other)
  +:+ " -> " +:+ str_shape (get_shape out).

Definition _layer_logging (self : nat) (other out : tensor) : M unit :=
  unique_name <- unique_name self ;;
  modify_graph (add_logged (log_line unique_name other out)).

(** [tf.get_collection(TRAINABLE_VARIABLES, scope=s)] keeps the variables
    whose name matches [s] at its start; [s] is read as plain text.  A
    variable of the scope ["dense_1"] is thus also found under ["dense"]. *)
Definition get_collection_trainable (g : Graph) (scope : string) : list variable :=
  List.filter (fun v => String.prefix scope (var_name v)) (trainable_variables g).

Definition get_variables_in_scope (self : nat) : M (list variable) :=
  ref <- template self ;;
  t <- get_template ref ;;
  if t_variables_created t then
    scope <- variable_scope_name self ;;
    fun w => (Ok (get_collection_trainable (graph w) scope), w)
  else mraise (Exn AssertionError "Variables not yet created or undefined.").

Definition summary_of (var : variable) : string * tensor :=
  (var_name var, ReduceMean (VarRead (var_op_name var) (var_shape var))).

(** [self._summary_added = True] *)
Definition set_summary_added (self : nat) : M unit := fun w =>
  match layers w !! self with
  | Some l =>
      (Ok tt,
       mkWorld (templates w) (<[self := with_summary_added l]> (layers w)) (graph w)
               (phase w))
  | None => (Raise (Exn DanglingReference "layer"), w)
  end.

Definition _add_summary (self : nat) : M unit :=
  l <- get_layer self ;;
  wanted <- (fun w => (truthy (default PNone (kwargs l !! "summary")), w)) ;;
  if negb wanted then mret tt else
  added <- summary_added self ;;
  if added : bool then mret tt else
  vars <- get_variables_in_scope self ;;
  _ <- modify_graph (add_summaries (map summary_of vars)) ;;
  set_summary_added self.

Definition __call__ (self : nat) (x : tensor) : M tensor :=
  l <- get_layer self ;;
  ref <- template self ;;
  out <- call_template ref x (args l) (kwargs l) ;;
  _ <- _layer_logging self x out ;;
  _ <- _add_summary self ;;
  mret out.

(** [other >> self] *)
Definition __rrshift__ (self : nat) (other : tensor) : M tensor :=
  __call__ self other.

End Layer.

(** The decorator: [layer(func)] is the class, used through its
    constructor. *)
Definition layer (func : layer_fn) : list pyval -> gmap string pyval -> M nat :=
  Layer.__init__ func.

Definition identity_layer := layer identity_layer_func.
Definition recurrent_layer := layer recurrent_layer_func.
Definition dense_layer := layer dense_layer_func.
Definition dropout_layer := layer dropout_layer_func.
Definition word_dropout_layer := layer word_dropout_layer_func.
Definition relu_layer := layer relu_layer_func.
Definition tanh_layer := layer tanh_layer_func.
Definition cross_entropy_layer := layer cross_entropy_layer_func.
Definition conv1d_layer := layer conv1d_layer_func.
Definition residual_layer := layer residual_layer_func.
Definition highway_layer := layer highway_layer_func.

(** [x >> l] for a tensor [x]: tensors define no [>>], so Python calls the
    reflected method of the right operand. *)
Definition rshift (x : tensor) (l : nat) : M tensor := Layer.__rrshift__ l x.

Local Close Scope world_scope.

(* ------------------------------------------------------------------ *)
(** ** Notions used in the statements *)

(** What [_add_summary] does to an instance [l] with template [t]. *)
Definition add_summary_result (self : nat) (l : Layer) (t : Template) (w : World)
  : result unit * World :=
  match truthy (default PNone (kwargs l !! "summary")) with
  | Raise e => (Raise e, w)
  | Ok false => (Ok tt, w)
  | Ok true =>
      if _summary_added l then (Ok tt, w)
      else if t_variables_created t then
        (Ok tt,
         mkWorld (templates w) (<[self := with_summary_added l]> (layers w))
           (add_summaries
              (map Layer.summary_of
                 (Layer.get_collection_trainable (graph w) (t_variable_scope t)))
              (graph w))
           (phase w))
      else (Raise (Exn AssertionError "Variables not yet created or undefined."), w)
  end.

(** What [__call__] does: the template call, the log line, the summaries. *)
Definition call_result (self : nat) (l : Layer) (t : Template) (x : tensor) (w : World)
  : result tensor * World :=
  let '(r, t', g') := template_call t x (args l) (kwargs l) (graph w) in
  let ts := <[_template l := t']> (templates w) in
  match r with
  | Raise e => (Raise e, mkWorld ts (layers w) g' (phase w))
  | Ok out =>
      let w1 := mkWorld ts (layers w)
                  (add_logged (Layer.log_line (_unique_name l) x out) g') (phase w) in
      match add_summary_result self l t' w1 with
      | (Ok _, w2) => (Ok out, w2)
      | (Raise e, w2) => (Raise e, w2)
      end
  end.

(** Construction with a string name: one template and one instance are
    allocated and the template's scope is opened. *)
Definition init_world (func : layer_fn) (a : list pyval) (k : gmap string pyval)
    (s : string) (w : World) : World :=
  let scope := _get_unique_variable_scope (graph w) s in
  mkWorld (templates w ++ [mkTemplate s func scope false])
          (layers w ++ [mkLayer func a k (PStr s) (length (templates w))
                                (split_last scope) false])
          (open_variable_subscope (graph w) scope) (phase w).

Definition same_instance (l l' : Layer) : Prop :=
  func l' = func l /\ args l' = args l /\ kwargs l' = kwargs l /\ name l' = name l
  /\ _template l' = _template l /\ _unique_name l' = _unique_name l
  /\ (_summary_added l = true -> _summary_added l' = true).

Definition same_template (t t' : Template) : Prop :=
  t_name t' = t_name t /\ t_func t' = t_func t
  /\ t_variable_scope t' = t_variable_scope t
  /\ (t_variables_created t = true -> t_variables_created t' = true).

Definition extends (w w' : World) : Prop :=
  (forall i l, layers w !! i = Some l ->
     exists l', layers w' !! i = Some l' /\ same_instance l l')
  /\ (forall i t, templates w !! i = Some t ->
        exists t', templates w' !! i = Some t' /\ same_template t t').

(** Later worlds: any number of constructions and invocations. *)
Inductive step : World -> World -> Prop :=
| step_init func a k w : step w (snd (Layer.__init__ func a k w))
| step_call self x w : step w (snd (Layer.__call__ self x w)).

Definition later : World -> World -> Prop := rtc step.



Definition example_ids : tensor := Placeholder "word_ids" (Some [Some 10; Some 5]).
Definition example_embedded : tensor :=
  Placeholder "embedded" (Some [Some 10; Some 5; Some 32]).


Definition unimplemented_layers : list (layer_fn * signature) :=
  [(conv1d_layer_func, conv1d_layer_params);
   (residual_layer_func, []);
   (highway_layer_func, [])].

(** The world after [residual_layer(5)] in a fresh process. *)
Definition residual_world : World := snd (residual_layer [PInt 5] ∅ empty_world).

(** The world after [conv1d_layer()] in a fresh process. *)
Definition conv1d_world : World := snd (conv1d_layer [] ∅ empty_world).

(** The world after [identity_layer(summary=True)] in a fresh process. *)
Definition summarized_world : World :=
  snd (identity_layer [] {["summary" := PBool true]} empty_world).


Definition template_refs (w : World) : list nat := _template <$> layers w.

(** The instances refer to distinct template objects, all of them in the
    world.  It holds in a fresh process and is kept by construction and
    invocation. *)
Definition well_formed (w : World) : Prop :=
  NoDup (template_refs w)
  /\ Forall (fun r => (r < length (templates w))%nat) (template_refs w).

(** Steps of the world that do not invoke the instance [self]. *)
Inductive step_uninvoked (self : nat) : World -> World -> Prop :=
| uninvoked_init func a k w :
    step_uninvoked self w (snd (Layer.__init__ func a k w))
| uninvoked_other other x w :
    other <> self -> step_uninvoked self w (snd (Layer.__call__ other x w)).


(** The world after [dense_layer(7, summary=True)] in a fresh process. *)
Definition dense_world : World :=
  snd (dense_layer [PInt 7] {["summary" := PBool true]} empty_world).

(* ------------------------------------------------------------------ *)
(** ** Further notions: the rest of the catalog *)

Definition dense_layer_params : signature :=
  [("hidden_dims", None); ("weight", Some PNone); ("bias", Some PNone)].



(** The layer functions that ask nothing of the graph but nodes. *)
Definition node_only_layers : list layer_fn :=
  [identity_layer_func; dropout_layer_func; word_dropout_layer_func;
   relu_layer_func; tanh_layer_func; cross_entropy_layer_func;
   conv1d_layer_func; residual_layer_func; highway_layer_func].

(** The layer functions declared without [**opts]. *)
Definition keywordless_layers : list (layer_fn * (tensor -> tensor)) :=
  [(relu_layer_func, Relu); (tanh_layer_func, Tanh)].






Fixpoint has_slash (s : string) : bool :=
  match s with
  | EmptyString => false
  | String c r => Ascii.eqb c "/"%char || has_slash r
  end.

(** A world in which another instance has been constructed and invoked
    before the dense layer of [dense_world] is. *)
Definition two_dense_world : World :=
  snd (dense_layer [PInt 7] ∅ dense_world).

(** A program that asks the graph for variables only. *)
Inductive only_variables {A : Type} : prog A -> Prop :=
| only_ret a : only_variables (Ret a)
| only_throw e : only_variables (Throw e)
| only_get n s k : (forall t, only_variables (k t)) -> only_variables (GetVariable n s k).


(** The default cell of [recurrent_layer]. *)
Definition default_cell : pyval :=
  PCell (BasicRNNCell (PInt 128) (PFunc "tf.nn.tanh")).

(** The parameters of [recurrent_layer] bound to their defaults. *)
Definition default_bound_recurrent : gmap string pyval * gmap string pyval :=
  match bind_call recurrent_layer_params true [] ∅ with
  | Ok r => r
  | Raise _ => (∅, ∅)
  end.

(* ------------------------------------------------------------------ *)
(** * Properties *)

(** ** float32 *)


(** ** Running a layer function *)

Section Run.
Context {A : Type}.

(** Inside a reusing scope no variable is created. *)
Lemma run_reuse_variables (scope : string) (m : prog A) (g : Graph) :
  trainable_variables (snd (run scope true m g)) = trainable_variables g.
Proof.
  revert g; induction m as [a|e|n s k IH|key item k IH|n t k IH]; intros g; simpl;
    try reflexivity.
  - destruct (find_variable g (scoped scope n)) as [v|]; [|reflexivity].
    destruct (shape_eqb s (var_shape v)); [apply IH|reflexivity].
  - rewrite IH; reflexivity.
  - rewrite IH; reflexivity.
Qed.

(** A layer function opens no variable scope, whatever the mode. *)
Lemma run_variable_scopes (scope : string) (reuse : bool) (m : prog A) (g : Graph) :
  variable_scopes (snd (run scope reuse m g)) = variable_scopes g.
Proof.
  revert g; induction m as [a|e|n s k IH|key item k IH|n t k IH]; intros g; simpl;
    try reflexivity.
  - destruct (find_variable g (scoped scope n)) as [v|], reuse; try reflexivity.
    + destruct (shape_eqb s (var_shape v)); [apply IH|reflexivity].
    + rewrite IH; reflexivity.
  - rewrite IH; reflexivity.
  - rewrite IH; reflexivity.
Qed.


End Run.

(** ** Calling a template *)

Lemma template_call_static (t : Template) x a k g :
  let t' := snd (fst (template_call t x a k g)) in
  t_name t' = t_name t /\ t_func t' = t_func t
  /\ t_variable_scope t' = t_variable_scope t
  /\ (t_variables_created t = true -> t_variables_created t' = true).
Proof.
  cbv zeta. unfold template_call.
  destruct (t_variables_created t) eqn:Hc.
  - destruct (run _ true _ g) as [[out|e] g']; simpl; [|repeat split; auto].
    destruct (Nat.eqb _ _); simpl; repeat split; auto.
  - destruct (run _ false _ g) as [[out|e] g']; simpl; repeat split; auto; discriminate.
Qed.

(** A template call that returns leaves the template with its variables
    created. *)
Lemma template_call_ok_created (t : Template) x a k g out t' g' :
  template_call t x a k g = (Ok out, t', g') -> t_variables_created t' = true.
Proof.
  unfold template_call.
  destruct (t_variables_created t) eqn:Hc.
  - destruct (run _ true _ g) as [[o|e] g1]; [|intros [=]].
    destruct (Nat.eqb _ _); intros [=]; subst; assumption.
  - destruct (run _ false _ g) as [[o|e] g1]; intros [=]; subst; reflexivity.
Qed.

(** Once the variables are created, a call makes no new one. *)
Lemma template_call_created_variables (t : Template) x a k g :
  t_variables_created t = true ->
  trainable_variables (snd (template_call t x a k g)) = trainable_variables g.
Proof.
  intros Hc. unfold template_call. rewrite Hc.
  pose proof (run_reuse_variables (t_variable_scope t) (fn_call (t_func t) x a k) g) as H.
  destruct (run _ true _ g) as [[o|e] g1]; simpl in *; [|assumption].
  destruct (Nat.eqb _ _); simpl; assumption.
Qed.

Lemma template_call_variable_scopes (t : Template) x a k g :
  variable_scopes (snd (template_call t x a k g)) = variable_scopes g.
Proof.
  unfold template_call.
  destruct (t_variables_created t).
  - pose proof (run_variable_scopes (t_variable_scope t) true (fn_call (t_func t) x a k) g) as H.
    destruct (run _ true _ g) as [[o|e] g1]; simpl in *; [|assumption].
    destruct (Nat.eqb _ _); simpl; assumption.
  - pose proof (run_variable_scopes (t_variable_scope t) false (fn_call (t_func t) x a k) g) as H.
    destruct (run _ false _ g) as [[o|e] g1]; simpl in *; assumption.
Qed.

(** ** The methods in closed form *)

Lemma add_summary_unfold (self : nat) (w : World) (l : Layer) (t : Template) :
  layers w !! self = Some l ->
  templates w !! _template l = Some t ->
  Layer._add_summary self w = add_summary_result self l t w.
Proof.
  intros Hl Ht.
  unfold Layer._add_summary, add_summary_result, mbind', get_layer. rewrite Hl.
  destruct (truthy _) as [[|]|e]; simpl; try reflexivity.
  unfold Layer.summary_added, mbind', get_layer. rewrite Hl. simpl.
  destruct (_summary_added l); simpl; [reflexivity|].
  unfold Layer.get_variables_in_scope, Layer.template, mbind', get_layer, get_template.
  rewrite Hl. simpl. rewrite Ht.
  destruct (t_variables_created t); simpl; [|reflexivity].
  unfold Layer.variable_scope_name, Layer.template, mbind', get_layer, get_template.
  rewrite Hl. simpl. rewrite Ht. simpl.
  unfold Layer.set_summary_added. simpl. rewrite Hl. reflexivity.
Qed.

Lemma call_unfold (self : nat) (x : tensor) (w : World) (l : Layer) (t : Template) :
  layers w !! self = Some l ->
  templates w !! _template l = Some t ->
  Layer.__call__ self x w = call_result self l t x w.
Proof.
  intros Hl Ht.
  unfold Layer.__call__, call_result, Layer.template, mbind', get_layer, mret.
  rewrite !Hl. simpl.
  unfold call_template. rewrite Ht.
  destruct (template_call t x (args l) (kwargs l) (graph w)) as [[[out|e] t'] g'];
    [|reflexivity].
  unfold Layer._layer_logging, Layer.unique_name, mbind', get_layer, modify_graph, mret.
  simpl. rewrite !Hl. simpl.
  erewrite add_summary_unfold; [reflexivity|exact Hl|].
  simpl. apply list_lookup_insert_eq. eapply lookup_lt_Some; eassumption.
Qed.

Lemma call_dangling_layer (self : nat) (x : tensor) (w : World) :
  layers w !! self = None ->
  Layer.__call__ self x w = (Raise (Exn DanglingReference "layer"), w).
Proof.
  intros Hl. unfold Layer.__call__, mbind', get_layer. rewrite Hl. reflexivity.
Qed.

Lemma call_dangling_template (self : nat) (x : tensor) (w : World) (l : Layer) :
  layers w !! self = Some l ->
  templates w !! _template l = None ->
  Layer.__call__ self x w = (Raise (Exn DanglingReference "template"), w).
Proof.
  intros Hl Ht.
  unfold Layer.__call__, Layer.template, mbind', get_layer, mret. rewrite !Hl. simpl.
  unfold call_template. rewrite Ht. reflexivity.
Qed.

Lemma init_unfold (func : layer_fn) (a : list pyval) (k : gmap string pyval)
    (s : string) (w : World) :
  default (PStr (fn_name func)) (k !! "name") = PStr s ->
  Layer.__init__ func a k w = (Ok (length (layers w)), init_world func a k s w).
Proof.
  intros Hn. unfold Layer.__init__, mbind'. rewrite Hn. simpl.
  unfold get_template. simpl.
  rewrite lookup_app_r, Nat.sub_diag by lia. reflexivity.
Qed.

Lemma init_raise_world (func : layer_fn) (a : list pyval) (k : gmap string pyval)
    (w : World) (e : exn) (w' : World) :
  Layer.__init__ func a k w = (Raise e, w') -> w' = w.
Proof.
  unfold Layer.__init__, mbind'.
  destruct (default _ _) as [| | | |s| | |] eqn:Hn; simpl; try (intros [=]; congruence).
  unfold get_template. simpl.
  rewrite lookup_app_r, Nat.sub_diag by lia. simpl. intros [=].
Qed.

(** ** What survives any later construction or invocation *)

Lemma same_instance_refl l : same_instance l l.
Proof. unfold same_instance; tauto. Qed.

Lemma same_template_refl t : same_template t t.
Proof. unfold same_template; tauto. Qed.

Lemma same_instance_trans l1 l2 l3 :
  same_instance l1 l2 -> same_instance l2 l3 -> same_instance l1 l3.
Proof. unfold same_instance; intuition congruence. Qed.

Lemma same_template_trans t1 t2 t3 :
  same_template t1 t2 -> same_template t2 t3 -> same_template t1 t3.
Proof. unfold same_template; intuition congruence. Qed.

Create HintDb layers.
#[local] Hint Resolve same_instance_refl same_template_refl : layers.

Lemma extends_refl w : extends w w.
Proof. split; intros i y Hy; exists y; auto with layers. Qed.

Lemma extends_trans w1 w2 w3 : extends w1 w2 -> extends w2 w3 -> extends w1 w3.
Proof.
  intros [L12 T12] [L23 T23]; split.
  - intros i l Hl. destruct (L12 _ _ Hl) as (l2 & H2 & S2).
    destruct (L23 _ _ H2) as (l3 & H3 & S3).
    exists l3; split; [assumption|]. eapply same_instance_trans; eassumption.
  - intros i t Ht. destruct (T12 _ _ Ht) as (t2 & H2 & S2).
    destruct (T23 _ _ H2) as (t3 & H3 & S3).
    exists t3; split; [assumption|]. eapply same_template_trans; eassumption.
Qed.

(** Replacing one entry of a store by a compatible one. *)
Lemma insert_compatible {X} (R : X -> X -> Prop) (xs : list X) (j : nat) (y y' : X) :
  (forall z, R z z) -> xs !! j = Some y -> R y y' ->
  forall i z, xs !! i = Some z -> exists z', <[j := y']> xs !! i = Some z' /\ R z z'.
Proof.
  intros Hrefl Hj Hy i z Hi.
  destruct (decide (i = j)) as [->|Hne].
  - exists y'. split.
    + apply list_lookup_insert_eq. eapply lookup_lt_Some; eassumption.
    + congruence.
  - exists z. split; [|apply Hrefl].
    rewrite list_lookup_insert_ne by congruence. assumption.
Qed.

Lemma add_summary_result_extends self l t w :
  layers w !! self = Some l ->
  extends w (snd (add_summary_result self l t w)).
Proof.
  intros Hl. unfold add_summary_result.
  destruct (truthy _) as [[|]|e]; simpl; try apply extends_refl.
  destruct (_summary_added l) eqn:Hs; simpl; [apply extends_refl|].
  destruct (t_variables_created t); simpl; [|apply extends_refl].
  split; simpl.
  - apply insert_compatible with (y := l); auto with layers.
    unfold same_instance, with_summary_added; simpl. tauto.
  - intros i t0 Ht0. exists t0. auto with layers.
Qed.

Lemma call_result_extends self l t x w :
  layers w !! self = Some l ->
  templates w !! _template l = Some t ->
  extends w (snd (call_result self l t x w)).
Proof.
  intros Hl Ht. unfold call_result.
  pose proof (template_call_static t x (args l) (kwargs l) (graph w)) as Hs.
  destruct (template_call t x (args l) (kwargs l) (graph w)) as [[r t'] g'].
  simpl in Hs.
  assert (Hw1 : forall g, extends w (mkWorld (<[_template l := t']> (templates w))
                                             (layers w) g (phase w))).
  { intros g. split; simpl.
    - intros i l0 Hl0. exists l0. auto with layers.
    - apply insert_compatible with (y := t); auto with layers. }
  destruct r as [out|e]; [|apply Hw1].
  set (w1 := mkWorld _ _ _ _).
  pose proof (add_summary_result_extends self l t' w1 Hl) as Hx.
  destruct (add_summary_result self l t' w1) as [[u|e] w2]; simpl in *;
    (eapply extends_trans; [apply Hw1|exact Hx]).
Qed.

Lemma call_extends self x w : extends w (snd (Layer.__call__ self x w)).
Proof.
  destruct (layers w !! self) as [l|] eqn:Hl.
  - destruct (templates w !! _template l) as [t|] eqn:Ht.
    + rewrite (call_unfold _ _ _ _ _ Hl Ht). apply call_result_extends; assumption.
    + rewrite (call_dangling_template _ _ _ _ Hl Ht). apply extends_refl.
  - rewrite (call_dangling_layer _ _ _ Hl). apply extends_refl.
Qed.

Lemma init_world_extends func a k s w : extends w (init_world func a k s w).
Proof.
  split; simpl; intros i y Hy; exists y; split; auto with layers;
    apply lookup_app_l_Some; assumption.
Qed.

Lemma init_extends func a k w : extends w (snd (Layer.__init__ func a k w)).
Proof.
  destruct (Layer.__init__ func a k w) as [[self|e] w'] eqn:Hi; simpl.
  - destruct (default (PStr (fn_name func)) (k !! "name")) as [| | | |s| | |] eqn:Hn;
      try (unfold Layer.__init__, mbind' in Hi; rewrite Hn in Hi; simpl in Hi; discriminate).
    rewrite (init_unfold _ _ _ _ _ Hn) in Hi. injection Hi as _ <-.
    apply init_world_extends.
  - apply init_raise_world in Hi. subst. apply extends_refl.
Qed.

Lemma later_extends w w' : later w w' -> extends w w'.
Proof.
  induction 1 as [w|w1 w2 w3 Hs _ IH].
  - apply extends_refl.
  - eapply extends_trans; [|exact IH].
    destruct Hs; [apply init_extends|apply call_extends].
Qed.

(** ** The phase flag and dropout *)





(** ** Cross entropy *)




(** ** Results of an invocation *)

Lemma template_call_throw (t : Template) x a k g e :
  fn_call (t_func t) x a k = Throw e ->
  fst (fst (template_call t x a k g)) = Raise e.
Proof.
  intros H. unfold template_call. rewrite H. destruct (t_variables_created t); reflexivity.
Qed.

Lemma template_call_ret (t : Template) x a k g out :
  fn_call (t_func t) x a k = Ret out ->
  fst (fst (template_call t x a k g)) = Ok out.
Proof.
  intros H. unfold template_call. rewrite H.
  destruct (t_variables_created t); simpl; [|reflexivity].
  rewrite Nat.eqb_refl. reflexivity.
Qed.

(** An invocation returns what the template returns, unless the [summary]
    keyword cannot be used as a condition; it raises what the template
    raises. *)
Lemma call_result_fst self l t x w :
  fst (call_result self l t x w) =
    match fst (fst (template_call t x (args l) (kwargs l) (graph w))) with
    | Ok out =>
        match truthy (default PNone (kwargs l !! "summary")) with
        | Ok _ => Ok out
        | Raise e => Raise e
        end
    | Raise e => Raise e
    end.
Proof.
  unfold call_result.
  destruct (template_call t x (args l) (kwargs l) (graph w)) as [[[out|e] t'] g'] eqn:Hc;
    simpl; [|reflexivity].
  apply template_call_ok_created in Hc.
  unfold add_summary_result. rewrite Hc.
  destruct (truthy _) as [[|]|e]; simpl; try reflexivity.
  destruct (_summary_added l); reflexivity.
Qed.


(** ** Argument binding *)

Lemma bind_params_raise (params : signature) (a : list pyval) (k : gmap string pyval) e :
  bind_params params a k = Raise e -> exn_class e = TypeError.
Proof.
  revert a k; induction params as [|[p d] ps IH]; intros a k; simpl.
  - destruct a; intros [=]; subst; reflexivity.
  - destruct a as [|v a].
    + destruct (k !! p) as [v|], d as [dv|];
        try (destruct (bind_params ps [] (delete p k)) as [[b o]|e'] eqn:Hb;
             intros [=]; subst; eapply IH; eassumption).
      intros [=]; subst; reflexivity.
    + destruct (k !! p); [intros [=]; subst; reflexivity|].
      destruct (bind_params ps a k) as [[b o]|e'] eqn:Hb; intros [=]; subst.
      eapply IH; eassumption.
Qed.

Lemma bind_call_raise (params : signature) (vk : bool) (a : list pyval)
    (k : gmap string pyval) e :
  bind_call params vk a k = Raise e -> exn_class e = TypeError.
Proof.
  unfold bind_call. destruct (k !! "tensor"); [intros [=]; subst; reflexivity|].
  destruct (bind_params params a k) as [[b o]|e'] eqn:Hb.
  - destruct (vk || _); intros [=]; subst; reflexivity.
  - intros [=]; subst. eapply bind_params_raise; eassumption.
Qed.

(** ** Word dropout *)




(** ** Construction *)

Lemma init_ok_inv (f : layer_fn) (a : list pyval) (k : gmap string pyval)
    (w0 : World) (self : nat) (w : World) :
  Layer.__init__ f a k w0 = (Ok self, w) ->
  exists s, default (PStr (fn_name f)) (k !! "name") = PStr s
            /\ self = length (layers w0) /\ w = init_world f a k s w0.
Proof.
  intros Hi.
  destruct (default (PStr (fn_name f)) (k !! "name")) as [| | | |s| | |] eqn:Hn;
    try (unfold Layer.__init__, mbind' in Hi; rewrite Hn in Hi; simpl in Hi; discriminate).
  rewrite (init_unfold _ _ _ _ _ Hn) in Hi. injection Hi as <- <-. eauto.
Qed.

Lemma init_world_layer f a k s w0 :
  layers (init_world f a k s w0) !! length (layers w0)
  = Some (mkLayer f a k (PStr s) (length (templates w0))
            (split_last (_get_unique_variable_scope (graph w0) s)) false).
Proof. simpl. rewrite lookup_app_r, Nat.sub_diag by lia. reflexivity. Qed.

Lemma init_world_template f a k s w0 :
  templates (init_world f a k s w0) !! length (templates w0)
  = Some (mkTemplate s f (_get_unique_variable_scope (graph w0) s) false).
Proof. simpl. rewrite lookup_app_r, Nat.sub_diag by lia. reflexivity. Qed.

(** The instance and its template, as any later world holds them. *)
Lemma later_instance (w w1 : World) (self : nat) (l : Layer) (t : Template) :
  layers w !! self = Some l -> templates w !! _template l = Some t ->
  later w w1 ->
  exists l1 t1, layers w1 !! self = Some l1 /\ templates w1 !! _template l1 = Some t1
                /\ same_instance l l1 /\ same_template t t1.
Proof.
  intros Hl Ht Hlater. destruct (later_extends _ _ Hlater) as [HL HT].
  destruct (HL _ _ Hl) as (l1 & Hl1 & Sl). destruct (HT _ _ Ht) as (t1 & Ht1 & St).
  exists l1, t1. repeat split; try assumption; try apply Sl; try apply St.
  destruct Sl as (_ & _ & _ & _ & -> & _). assumption.
Qed.

(** ** The composition operator *)

(** C2: [x >> L] is [L(x)] — the reflected operator delegates to
    [__call__] — so [x >> L1 >> L2] is [L2(L1(x))]: the same result and the
    same effects, also when an invocation raises and when [L1] and [L2] are
    one instance. *)
Theorem rshift_is_application (x : tensor) (L1 L2 : nat) (w : World) :
  rshift x L1 w = Layer.__call__ L1 x w
  /\ Layer.__rrshift__ L1 x w = Layer.__call__ L1 x w
  /\ mbind' (rshift x L1) (fun y => rshift y L2) w
     = mbind' (Layer.__call__ L1 x) (fun y => Layer.__call__ L2 y) w.
Proof. repeat split. Qed.

(** ** The wrapper *)



(** ** The unimplemented layers *)

Lemma unimplemented_fn_call (f : layer_fn) (sig : signature) x a k :
  In (f, sig) unimplemented_layers ->
  fn_call f x a k =
    match bind_call sig true a k with
    | Ok _ => Throw (Exn NotImplementedError "")
    | Raise e => Throw e
    end.
Proof.
  intros [[= <- <-]|[[= <- <-]|[[= <- <-]|[]]]];
    unfold conv1d_layer_func, residual_layer_func, highway_layer_func, def; simpl;
    match goal with |- context [bind_call ?s ?v a k] =>
      destruct (bind_call s v a k) as [[b o]|e]; reflexivity end.
Qed.

(** C9, the claim as written fails: an instance of [residual_layer] that
    captured a positional argument raises TypeError when invoked, since the
    function takes none; the function body is never reached. *)
Lemma unimplemented_layers_counterexample :
  residual_layer [PInt 5] ∅ empty_world = (Ok 0%nat, residual_world)
  /\ raises (fst (Layer.__call__ 0 example_ids residual_world)) TypeError
  /\ ~ raises (fst (Layer.__call__ 0 example_ids residual_world)) NotImplementedError.
Proof.
  split; [reflexivity|].
  assert (H : fst (Layer.__call__ 0 example_ids residual_world)
              = Raise (Exn TypeError "too many positional arguments")) by reflexivity.
  rewrite H. simpl. split; [reflexivity|discriminate].
Qed.

(** C9 (amended): constructing [conv1d_layer], [residual_layer] or
    [highway_layer] with no [name] or a string [name] succeeds; for every
    input tensor, every invocation of an instance whose captured arguments
    the function's parameters accept raises NotImplementedError, and every
    invocation of an instance whose captured arguments they do not accept
    raises TypeError. *)
Theorem unimplemented_layers_raise (f : layer_fn) (sig : signature)
    (a : list pyval) (k : gmap string pyval) (w0 : World) :
  In (f, sig) unimplemented_layers ->
  (k !! "name" = None \/ exists s, k !! "name" = Some (PStr s)) ->
  exists self w,
    Layer.__init__ f a k w0 = (Ok self, w)
    /\ forall w1, later w w1 -> forall x,
         (is_ok (bind_call sig true a k) = true ->
          raises (fst (Layer.__call__ self x w1)) NotImplementedError)
         /\ (is_ok (bind_call sig true a k) = false ->
             raises (fst (Layer.__call__ self x w1)) TypeError).
Proof.
  intros Hin Hname.
  assert (Hn : exists s, default (PStr (fn_name f)) (k !! "name") = PStr s).
  { destruct Hname as [->|[s ->]]; simpl; eauto. }
  destruct Hn as [s Hn].
  exists (length (layers w0)), (init_world f a k s w0).
  split; [apply init_unfold; exact Hn|].
  intros w1 Hlater x.
  destruct (later_instance _ _ _ _ _ (init_world_layer f a k s w0)
              (init_world_template f a k s w0) Hlater)
    as (l1 & t1 & Hl1 & Ht1 & Sl & St).
  destruct Sl as (_ & Ha & Hk & _). destruct St as (_ & Hf & _).
  simpl in Ha, Hk, Hf.
  rewrite (call_unfold _ _ _ _ _ Hl1 Ht1), call_result_fst.
  pose proof (unimplemented_fn_call f sig x a k Hin) as Hcall.
  destruct (bind_call sig true a k) as [[b o]|e] eqn:Hb; simpl; split;
    try discriminate; intros _.
  - rewrite (template_call_throw t1 x (args l1) (kwargs l1) (graph w1)
               (Exn NotImplementedError "")); [reflexivity|].
    rewrite Hf, Ha, Hk. exact Hcall.
  - rewrite (template_call_throw t1 x (args l1) (kwargs l1) (graph w1) e).
    + simpl. eapply bind_call_raise; eassumption.
    + rewrite Hf, Ha, Hk. exact Hcall.
Qed.

Lemma unimplemented_layers_raise_witness :
  In (conv1d_layer_func, conv1d_layer_params) unimplemented_layers
  /\ (∅ : gmap string pyval) !! "name" = None
  /\ exists self w,
       Layer.__init__ conv1d_layer_func [] ∅ empty_world = (Ok self, w)
       /\ raises (fst (Layer.__call__ self example_ids w)) NotImplementedError.
Proof.
  assert (Hin : In (conv1d_layer_func, conv1d_layer_params) unimplemented_layers)
    by (left; reflexivity).
  assert (Hname : (∅ : gmap string pyval) !! "name" = None) by reflexivity.
  split; [exact Hin|]. split; [exact Hname|].
  destruct (unimplemented_layers_raise conv1d_layer_func conv1d_layer_params [] ∅
              empty_world Hin (or_introl Hname)) as (self & w & Hi & Hcall).
  exists self, w. split; [exact Hi|].
  apply (Hcall w (rtc_refl _ _) example_ids). reflexivity.
Defined.

(** ** What an invocation writes *)

Lemma add_summary_result_frame self l t w :
  let r := add_summary_result self l t w in
  phase (snd r) = phase w /\ templates (snd r) = templates w
  /\ (layers (snd r) = layers w
      \/ (layers (snd r) = <[self := with_summary_added l]> (layers w)
          /\ _summary_added l = false
          /\ truthy (default PNone (kwargs l !! "summary")) = Ok true
          /\ fst r = Ok tt)).
Proof.
  cbv zeta. unfold add_summary_result.
  destruct (truthy _) as [[|]|e]; simpl; auto.
  destruct (_summary_added l); simpl; auto.
  destruct (t_variables_created t); simpl; auto 10.
Qed.

Lemma call_result_frame self l t x w :
  let r := call_result self l t x w in
  phase (snd r) = phase w
  /\ (layers (snd r) = layers w
      \/ (layers (snd r) = <[self := with_summary_added l]> (layers w)
          /\ _summary_added l = false
          /\ truthy (default PNone (kwargs l !! "summary")) = Ok true
          /\ is_ok (fst r) = true)).
Proof.
  cbv zeta. unfold call_result.
  destruct (template_call t x (args l) (kwargs l) (graph w)) as [[[out|e] t'] g'];
    simpl; auto.
  set (w1 := mkWorld _ _ _ _).
  pose proof (add_summary_result_frame self l t' w1) as (Hp & _ & Hl).
  destruct (add_summary_result self l t' w1) as [[u|e] w2]; simpl in *.
  - split; [exact Hp|]. destruct Hl as [Hl|(Hl & Hs & Ht & _)]; auto.
  - split; [exact Hp|]. destruct Hl as [Hl|(_ & _ & _ & [=])]; auto.
Qed.

(** C6, the claim as written fails: the first invocation of an instance made
    with [summary=True] changes the instance's [_summary_added] from False
    to True. *)
Lemma layer_stateless_counterexample :
  identity_layer [] {["summary" := PBool true]} empty_world = (Ok 0%nat, summarized_world)
  /\ _summary_added <$> layers summarized_world !! 0%nat = Some false
  /\ _summary_added
       <$> layers (snd (Layer.__call__ 0 example_ids summarized_world)) !! 0%nat
     = Some true.
Proof. repeat split. Qed.

(** C6 (amended): an invocation writes one attribute only, the invoked
    instance's [_summary_added], which the first invocation that returns
    sets to True when the [summary] keyword is truthy; [func], [args],
    [kwargs], [name], [_template] and [_unique_name] keep their values, every
    other instance is left as it was, and the module's phase variable keeps
    its value. *)
Theorem invocation_writes_summary_added_only (self : nat) (x : tensor) (w : World)
    (l : Layer) :
  layers w !! self = Some l ->
  exists l',
    layers (snd (Layer.__call__ self x w)) !! self = Some l'
    /\ func l' = func l /\ args l' = args l /\ kwargs l' = kwargs l
    /\ name l' = name l /\ _template l' = _template l
    /\ _unique_name l' = _unique_name l
    /\ (_summary_added l' = _summary_added l
        \/ (_summary_added l = false /\ _summary_added l' = true
            /\ truthy (default PNone (kwargs l !! "summary")) = Ok true
            /\ is_ok (fst (Layer.__call__ self x w)) = true))
    /\ (forall i, i <> self ->
          layers (snd (Layer.__call__ self x w)) !! i = layers w !! i)
    /\ phase (snd (Layer.__call__ self x w)) = phase w.
Proof.
  intros Hl.
  destruct (templates w !! _template l) as [t|] eqn:Ht.
  - rewrite (call_unfold _ _ _ _ _ Hl Ht).
    destruct (call_result_frame self l t x w) as (Hp & [Hs|(Hs & Hf & Htr & Hok)]);
      rewrite Hs.
    + exists l. rewrite Hl. repeat split; auto.
    + exists (with_summary_added l). split.
      * apply list_lookup_insert_eq. eapply lookup_lt_Some; eassumption.
      * simpl. repeat split; auto.
        intros i Hi. apply list_lookup_insert_ne. congruence.
  - rewrite (call_dangling_template _ _ _ _ Hl Ht). simpl.
    exists l. repeat split; auto.
Qed.

Lemma invocation_writes_summary_added_only_witness :
  layers summarized_world !! 0%nat
  = Some (mkLayer identity_layer_func [] {["summary" := PBool true]}
            (PStr "identity_layer") 0 "identity_layer" false)
  /\ exists l',
       layers (snd (Layer.__call__ 0 example_ids summarized_world)) !! 0%nat = Some l'
       /\ func l' = identity_layer_func /\ _summary_added l' = true.
Proof.
  assert (Hl : layers summarized_world !! 0%nat
               = Some (mkLayer identity_layer_func [] {["summary" := PBool true]}
                         (PStr "identity_layer") 0 "identity_layer" false))
    by reflexivity.
  split; [exact Hl|].
  destruct (invocation_writes_summary_added_only 0 example_ids summarized_world _ Hl)
    as (l' & Hl' & Hf & _).
  exists l'. split; [exact Hl'|]. split; [exact Hf|].
  assert (Hc : _summary_added
                 <$> layers (snd (Layer.__call__ 0 example_ids summarized_world)) !! 0%nat
               = Some true) by reflexivity.
  rewrite Hl' in Hc. injection Hc as Hc. exact Hc.
Defined.

(** ** Variables and scopes *)




Lemma call_result_templates self l t x w :
  templates (snd (call_result self l t x w))
  = <[_template l := snd (fst (template_call t x (args l) (kwargs l) (graph w)))]>
      (templates w).
Proof.
  unfold call_result.
  destruct (template_call t x (args l) (kwargs l) (graph w)) as [[[out|e] t'] g'];
    simpl; [|reflexivity].
  set (w1 := mkWorld _ _ _ _).
  pose proof (add_summary_result_frame self l t' w1) as (_ & Ht & _).
  destruct (add_summary_result self l t' w1) as [[u|e] w2]; simpl in *; exact Ht.
Qed.


Lemma get_variables_in_scope_unfold self w l t :
  layers w !! self = Some l -> templates w !! _template l = Some t ->
  Layer.get_variables_in_scope self w =
    if t_variables_created t
    then (Ok (Layer.get_collection_trainable (graph w) (t_variable_scope t)), w)
    else (Raise (Exn AssertionError "Variables not yet created or undefined."), w).
Proof.
  intros Hl Ht.
  unfold Layer.get_variables_in_scope, Layer.variable_scope_name, Layer.template,
    mbind', get_layer, get_template, mret.
  rewrite !Hl. simpl. rewrite !Ht. simpl.
  destruct (t_variables_created t); simpl; [|reflexivity].
  rewrite !Hl. simpl. rewrite !Ht. reflexivity.
Qed.


(** ** Every instance owns its template *)

Lemma well_formed_empty : well_formed empty_world.
Proof. split; constructor. Qed.

Lemma call_template_refs self x w :
  template_refs (snd (Layer.__call__ self x w)) = template_refs w.
Proof.
  unfold template_refs.
  destruct (layers w !! self) as [l|] eqn:Hl.
  - destruct (templates w !! _template l) as [t|] eqn:Ht.
    + rewrite (call_unfold _ _ _ _ _ Hl Ht).
      destruct (call_result_frame self l t x w) as (_ & [->|(-> & _)]); [reflexivity|].
      rewrite list_fmap_insert. simpl. apply list_insert_id.
      rewrite list_lookup_fmap, Hl. reflexivity.
    + rewrite (call_dangling_template _ _ _ _ Hl Ht). reflexivity.
  - rewrite (call_dangling_layer _ _ _ Hl). reflexivity.
Qed.

Lemma call_templates self x w l t :
  layers w !! self = Some l -> templates w !! _template l = Some t ->
  templates (snd (Layer.__call__ self x w))
  = <[_template l := snd (fst (template_call t x (args l) (kwargs l) (graph w)))]>
      (templates w).
Proof.
  intros Hl Ht. rewrite (call_unfold _ _ _ _ _ Hl Ht). apply call_result_templates.
Qed.

Lemma call_templates_length self x w :
  length (templates (snd (Layer.__call__ self x w))) = length (templates w).
Proof.
  destruct (layers w !! self) as [l|] eqn:Hl.
  - destruct (templates w !! _template l) as [t|] eqn:Ht.
    + rewrite (call_templates _ _ _ _ _ Hl Ht). apply length_insert.
    + rewrite (call_dangling_template _ _ _ _ Hl Ht). reflexivity.
  - rewrite (call_dangling_layer _ _ _ Hl). reflexivity.
Qed.

Lemma well_formed_call self x w :
  well_formed w -> well_formed (snd (Layer.__call__ self x w)).
Proof.
  unfold well_formed. rewrite call_template_refs, call_templates_length. auto.
Qed.

Lemma well_formed_init_world f a k s w :
  well_formed w -> well_formed (init_world f a k s w).
Proof.
  intros [Hnd Hb]. unfold well_formed, template_refs. simpl.
  rewrite fmap_app. simpl. rewrite length_app. simpl. split.
  - apply NoDup_app. split; [exact Hnd|]. split; [|apply NoDup_singleton].
    intros r Hr Hin. apply list_elem_of_singleton in Hin. subst.
    rewrite Forall_forall in Hb. specialize (Hb _ Hr). lia.
  - apply Forall_app. split.
    + eapply Forall_impl; [exact Hb|]. intros; simpl in *; lia.
    + constructor; [lia|constructor].
Qed.

Lemma well_formed_init f a k w :
  well_formed w -> well_formed (snd (Layer.__init__ f a k w)).
Proof.
  intros Hw. destruct (Layer.__init__ f a k w) as [[self|e] w'] eqn:Hi; simpl.
  - destruct (init_ok_inv _ _ _ _ _ _ Hi) as (s & _ & _ & ->).
    apply well_formed_init_world; assumption.
  - apply init_raise_world in Hi. subst. assumption.
Qed.

(** Two instances with one template are one instance. *)
Lemma well_formed_owner w i j li lj :
  well_formed w -> layers w !! i = Some li -> layers w !! j = Some lj ->
  _template li = _template lj -> i = j.
Proof.
  intros [Hnd _] Hi Hj Heq.
  apply (NoDup_lookup (template_refs w) i j (_template li) Hnd); unfold template_refs;
    rewrite list_lookup_fmap; [rewrite Hi|rewrite Hj]; simpl; congruence.
Qed.

(** ** Before the first invocation *)

Lemma call_layers self x w :
  layers (snd (Layer.__call__ self x w)) = layers w
  \/ exists l, layers w !! self = Some l
       /\ layers (snd (Layer.__call__ self x w)) = <[self := with_summary_added l]> (layers w)
       /\ is_ok (fst (Layer.__call__ self x w)) = true.
Proof.
  destruct (layers w !! self) as [l|] eqn:Hl.
  - destruct (templates w !! _template l) as [t|] eqn:Ht.
    + rewrite (call_unfold _ _ _ _ _ Hl Ht).
      destruct (call_result_frame self l t x w) as (_ & [H|(H & _ & _ & Hok)]); eauto.
    + rewrite (call_dangling_template _ _ _ _ Hl Ht). auto.
  - rewrite (call_dangling_layer _ _ _ Hl). auto.
Qed.

Lemma call_layers_other self other x w :
  other <> self ->
  layers (snd (Layer.__call__ other x w)) !! self = layers w !! self.
Proof.
  intros Hne. destruct (call_layers other x w) as [->|(l & _ & -> & _)]; [reflexivity|].
  apply list_lookup_insert_ne. assumption.
Qed.


Lemma init_layers_old f a k w self l :
  layers w !! self = Some l ->
  layers (snd (Layer.__init__ f a k w)) !! self = Some l.
Proof.
  intros Hl. destruct (Layer.__init__ f a k w) as [[n|e] w'] eqn:Hi; simpl.
  - destruct (init_ok_inv _ _ _ _ _ _ Hi) as (s & _ & _ & ->). simpl.
    apply lookup_app_l_Some. assumption.
  - apply init_raise_world in Hi. subst. assumption.
Qed.

Lemma init_templates_old f a k w ref t :
  templates w !! ref = Some t ->
  templates (snd (Layer.__init__ f a k w)) !! ref = Some t.
Proof.
  intros Ht. destruct (Layer.__init__ f a k w) as [[n|e] w'] eqn:Hi; simpl.
  - destruct (init_ok_inv _ _ _ _ _ _ Hi) as (s & _ & _ & ->). simpl.
    apply lookup_app_l_Some. assumption.
  - apply init_raise_world in Hi. subst. assumption.
Qed.

(** An invocation of another instance leaves the template of [self]. *)
Lemma call_templates_other self other x w l t :
  well_formed w -> other <> self ->
  layers w !! self = Some l -> templates w !! _template l = Some t ->
  templates (snd (Layer.__call__ other x w)) !! _template l = Some t.
Proof.
  intros Hw Hne Hl Ht.
  destruct (layers w !! other) as [lo|] eqn:Hlo.
  - destruct (templates w !! _template lo) as [to|] eqn:Hto.
    + rewrite (call_templates _ _ _ _ _ Hlo Hto).
      rewrite list_lookup_insert_ne; [assumption|].
      intros Heq. apply Hne. eapply well_formed_owner; eassumption.
    + rewrite (call_dangling_template _ _ _ _ Hlo Hto). assumption.
  - rewrite (call_dangling_layer _ _ _ Hlo). assumption.
Qed.

(** Until the instance is invoked, it and its template stay as they are. *)
Lemma uninvoked_keeps self w w1 l t :
  rtc (step_uninvoked self) w w1 ->
  well_formed w -> layers w !! self = Some l -> templates w !! _template l = Some t ->
  well_formed w1 /\ layers w1 !! self = Some l /\ templates w1 !! _template l = Some t.
Proof.
  induction 1 as [w|w w' w1 Hs _ IH]; intros Hw Hl Ht; [auto|].
  destruct Hs as [f a k w|other x w Hne].
  - apply IH; [apply well_formed_init; assumption
              |apply init_layers_old; assumption
              |apply init_templates_old; assumption].
  - apply IH; [apply well_formed_call; assumption
              |rewrite call_layers_other; assumption
              |eapply call_templates_other; eassumption].
Qed.



Lemma uninvoked_later self w w1 : rtc (step_uninvoked self) w w1 -> later w w1.
Proof.
  induction 1 as [w|w w' w1 Hs _ IH]; [apply rtc_refl|].
  eapply rtc_l; [|exact IH]. destruct Hs; constructor.
Qed.

(** ** After an invocation has returned *)






(** ** Variables in scope *)



(** ** Summaries *)



(** ** The memoized template *)



(** ** Unique scope names *)





(* ------------------------------------------------------------------ *)
(** * Further properties of the catalog *)

(** ** Sequencing *)

Lemma run_bind {A B} (scope : string) (reuse : bool) (m : prog A) (f : A -> prog B)
    (g : Graph) :
  run scope reuse (pbind m f) g =
    match run scope reuse m g with
    | (Ok a, g') => run scope reuse (f a) g'
    | (Raise e, g') => (Raise e, g')
    end.
Proof.
  revert g; induction m as [a|e|n s k IH|key item k IH|n t k IH]; intros g; simpl;
    try reflexivity.
  - destruct (find_variable g (scoped scope n)) as [v|], reuse; try reflexivity.
    + destruct (shape_eqb s (var_shape v)); [apply IH|reflexivity].
    + apply IH.
  - apply IH.
  - apply IH.
Qed.

Lemma run_lift {A} (scope : string) (reuse : bool) (r : result A) (g : Graph) :
  run scope reuse (lift r) g = (r, g).
Proof. destruct r; reflexivity. Qed.

(** ** Layers that only build nodes *)

Ltac case_lifts :=
  repeat match goal with
         | |- context [lift ?r] => destruct r; simpl
         | |- context [if negb ?c then _ else _] => destruct c; simpl
         end.

(** X1: identity, dropout, word dropout, relu, tanh, cross entropy and the
    three unimplemented layers leave the default graph as it is, whatever
    their arguments and whether they return or raise: they create no
    variable and add no summary and no collection entry. *)
Theorem node_only_layers_keep_graph (f : layer_fn) (x : tensor) (a : list pyval)
    (k : gmap string pyval) (scope : string) (reuse : bool) (g : Graph) :
  In f node_only_layers ->
  snd (run scope reuse (fn_call f x a k) g) = g.
Proof.
  intros Hin. repeat (destruct Hin as [<-|Hin]); [..|destruct Hin];
    unfold identity_layer_func, dropout_layer_func, word_dropout_layer_func,
      relu_layer_func, tanh_layer_func, cross_entropy_layer_func,
      conv1d_layer_func, residual_layer_func, highway_layer_func, def; simpl;
    match goal with |- context [bind_call ?s ?v a k] =>
      destruct (bind_call s v a k) as [[b o]|e]; simpl; try reflexivity end;
    case_lifts; reflexivity.
Qed.

Lemma node_only_layers_keep_graph_witness :
  In word_dropout_layer_func node_only_layers
  /\ snd (run "scope" false (fn_call word_dropout_layer_func example_embedded [] ∅)
            empty_graph) = empty_graph.
Proof.
  assert (Hin : In word_dropout_layer_func node_only_layers)
    by (right; right; left; reflexivity).
  split; [exact Hin|].
  exact (node_only_layers_keep_graph _ example_embedded [] ∅ "scope" false empty_graph Hin).
Defined.

(** ** Layers declared without keyword arguments *)

Lemma keywordless_fn_call (f : layer_fn) (op : tensor -> tensor) x a k :
  In (f, op) keywordless_layers ->
  (a = [] -> k = ∅ -> fn_call f x a k = Ret (op x))
  /\ (a <> [] \/ k <> ∅ -> exists e, fn_call f x a k = Throw e /\ exn_class e = TypeError).
Proof.
  intros Hin.
  assert (Hf : fn_call f x a k =
               match bind_call [] false a k with
               | Ok _ => Ret (op x)
               | Raise e => Throw e
               end).
  { destruct Hin as [[= <- <-]|[[= <- <-]|[]]];
      unfold relu_layer_func, tanh_layer_func, def; simpl;
      destruct (bind_call [] false a k) as [[b o]|e]; reflexivity. }
  split.
  - intros -> ->. rewrite Hf. reflexivity.
  - intros Hbad. rewrite Hf.
    destruct (bind_call [] false a k) as [[b o]|e] eqn:Hb.
    + exfalso. unfold bind_call in Hb.
      destruct (k !! "tensor"); [discriminate|].
      destruct a as [|v a]; simpl in Hb; [|discriminate].
      destruct (bool_decide_reflect (dom k = (∅ : gset string))) as [Hd|Hd];
        [|discriminate].
      apply dom_empty_iff_L in Hd. destruct Hbad as [Ha|Hk]; [apply Ha|apply Hk]; auto.
    + exists e. split; [reflexivity|]. eapply bind_call_raise; eassumption.
Qed.

(** X2: [relu_layer] and [tanh_layer] are declared without [**opts], so an
    instance returns only when it was constructed without any argument: then
    every invocation returns the activation of its input.  An instance that
    captured any positional or keyword argument, a [name] or a [summary]
    included, raises TypeError on every invocation. *)
Theorem keywordless_layers_take_no_arguments (f : layer_fn) (op : tensor -> tensor)
    (a : list pyval) (k : gmap string pyval) (w0 : World) (self : nat) (w : World) :
  In (f, op) keywordless_layers ->
  layer f a k w0 = (Ok self, w) ->
  forall w1, later w w1 -> forall x,
    (a = [] -> k = ∅ -> fst (Layer.__call__ self x w1) = Ok (op x))
    /\ (a <> [] \/ k <> ∅ -> raises (fst (Layer.__call__ self x w1)) TypeError).
Proof.
  intros Hin Hi w1 Hlater x.
  destruct (init_ok_inv _ _ _ _ _ _ Hi) as (s & Hn & -> & ->).
  destruct (later_instance _ _ _ _ _ (init_world_layer f a k s w0)
              (init_world_template f a k s w0) Hlater)
    as (l1 & t1 & Hl1 & Ht1 & Sl & St).
  destruct Sl as (_ & Ha & Hk & _). destruct St as (_ & Hf & _).
  simpl in Ha, Hk, Hf.
  rewrite (call_unfold _ _ _ _ _ Hl1 Ht1), call_result_fst.
  destruct (keywordless_fn_call f op x a k Hin) as [Hgood Hbad].
  split.
  - intros Ha0 Hk0.
    rewrite (template_call_ret t1 x (args l1) (kwargs l1) (graph w1) (op x)).
    + rewrite Hk, Hk0. reflexivity.
    + rewrite Hf, Ha, Hk. auto.
  - intros Hargs. destruct (Hbad Hargs) as (e & He & Hc).
    rewrite (template_call_throw t1 x (args l1) (kwargs l1) (graph w1) e).
    + exact Hc.
    + rewrite Hf, Ha, Hk. exact He.
Qed.

Lemma keywordless_layers_take_no_arguments_witness :
  In (relu_layer_func, Relu) keywordless_layers
  /\ layer relu_layer_func [] {["name" := PStr "activation"]} empty_world
     = (Ok 0%nat, snd (relu_layer [] {["name" := PStr "activation"]} empty_world))
  /\ raises (fst (Layer.__call__ 0 example_ids
                    (snd (relu_layer [] {["name" := PStr "activation"]} empty_world))))
       TypeError.
Proof.
  assert (Hin : In (relu_layer_func, Relu) keywordless_layers) by (left; reflexivity).
  assert (Hi : layer relu_layer_func [] {["name" := PStr "activation"]} empty_world
               = (Ok 0%nat, snd (relu_layer [] {["name" := PStr "activation"]} empty_world)))
    by reflexivity.
  split; [exact Hin|]. split; [exact Hi|].
  apply (keywordless_layers_take_no_arguments _ _ _ _ _ _ _ Hin Hi _ (rtc_refl _ _)
           example_ids).
  right. intros He. apply (f_equal (fun m : gmap string pyval => m !! "name")) in He.
  discriminate He.
Defined.

(** ** The dense layer *)











(** X6: [dense_layer] reads the last dimension of its input first.  When
    the static shape does not give it, the call raises before any variable
    is asked for and the graph stays as it is: TypeError for an unknown rank
    or an unknown last dimension, IndexError for a scalar. *)
Theorem dense_layer_needs_last_dimension (x : tensor) (a : list pyval)
    (k b opts : gmap string pyval) (scope : string) (reuse : bool) (g : Graph) :
  bind_call dense_layer_params true a k = Ok (b, opts) ->
  (get_shape x = None \/ get_shape x = Some []
   \/ exists dims, get_shape x = Some dims /\ last dims = Some None) ->
  raises (fst (run scope reuse (fn_call dense_layer_func x a k) g))
    (if bool_decide (get_shape x = Some []) then IndexError else TypeError)
  /\ snd (run scope reuse (fn_call dense_layer_func x a k) g) = g.
Proof.
  intros Hb Hshape. unfold dense_layer_func, def, fn_call.
  change (bind_call [("hidden_dims", None); ("weight", Some PNone); ("bias", Some PNone)]
            true a k) with (bind_call dense_layer_params true a k).
  rewrite Hb. unfold last_dim.
  destruct Hshape as [Hs|[Hs|(dims & Hs & Hl)]]; rewrite Hs.
  - simpl. auto.
  - simpl. auto.
  - rewrite Hl. rewrite bool_decide_eq_false_2.
    + simpl. auto.
    + intros [= ->]. discriminate Hl.
Qed.

Lemma dense_layer_needs_last_dimension_witness :
  bind_call dense_layer_params true [PInt 7] ∅
  = Ok ({["hidden_dims" := PInt 7; "weight" := PNone; "bias" := PNone]}, ∅)
  /\ get_shape (Placeholder "fed" None) = None
  /\ raises (fst (run "dense" false
                    (fn_call dense_layer_func (Placeholder "fed" None) [PInt 7] ∅)
                    empty_graph)) TypeError.
Proof.
  assert (Hb : bind_call dense_layer_params true [PInt 7] ∅
               = Ok ({["hidden_dims" := PInt 7; "weight" := PNone; "bias" := PNone]}, ∅))
    by reflexivity.
  split; [exact Hb|]. split; [reflexivity|].
  exact (proj1 (dense_layer_needs_last_dimension (Placeholder "fed" None) [PInt 7] ∅ _ ∅
                  "dense" false empty_graph Hb (or_introl eq_refl))).
Defined.

(** ** The recurrent layer *)

Lemma only_variables_bind {A B} (m : prog A) (f : A -> prog B) :
  only_variables m -> (forall a, only_variables (f a)) -> only_variables (pbind m f).
Proof.
  intros Hm Hf. induction Hm as [a|e|n s k _ IH]; simpl.
  - apply Hf.
  - constructor.
  - constructor. exact IH.
Qed.

Lemma only_variables_lift {A} (r : result A) : only_variables (lift r).
Proof. destruct r; constructor. Qed.

Lemma only_variables_get_variables (vs : list (string * list Z)) :
  only_variables (get_variables vs).
Proof.
  induction vs as [|[n s] vs IH]; simpl; constructor. intros t. exact IH.
Qed.

Lemma only_variables_dynamic_rnn cell x sl st : only_variables (dynamic_rnn cell x sl st).
Proof.
  unfold dynamic_rnn. destruct cell; try constructor.
  apply only_variables_bind; [apply only_variables_lift|]. intros d.
  apply only_variables_bind; [apply only_variables_get_variables|]. intros _.
  constructor.
Qed.

Lemma only_variables_dynamic_rnn_decoder cell fn sl :
  only_variables (dynamic_rnn_decoder cell fn sl).
Proof. unfold dynamic_rnn_decoder. destruct cell; constructor. Qed.

(** A program that asks for variables only leaves the collections, the
    summaries and the log. *)
Lemma only_variables_run {A} (scope : string) (reuse : bool) (m : prog A) (g : Graph) :
  only_variables m ->
  collections (snd (run scope reuse m g)) = collections g
  /\ summaries (snd (run scope reuse m g)) = summaries g
  /\ logged (snd (run scope reuse m g)) = logged g.
Proof.
  intros Hm. revert g. induction Hm as [a|e|n s k _ IH]; intros g; simpl; auto.
  destruct (find_variable g (scoped scope n)) as [v|], reuse; simpl; auto.
  - destruct (shape_eqb s (var_shape v)); simpl; auto.
  - destruct (IH (VarRead (scoped scope n) s) (add_variable (Var (scoped scope n) s) g))
      as (-> & -> & ->). auto.
Qed.

Lemma recurrent_fn_call (x : tensor) (a : list pyval) (k b opts : gmap string pyval) :
  bind_call recurrent_layer_params true a k = Ok (b, opts) ->
  fn_call recurrent_layer_func x a k =
    pbind (recurrent_layer_cell b) (fun cell =>
    pbind (lift (truthy (default PNone (opts !! "name")))) (fun named =>
    pbind (if named : bool
           then add_to_collection (default PNone (opts !! "name")) cell
           else Ret tt) (fun _ =>
    pbind (if is_none (b !!! "decoder_fn")
           then dynamic_rnn cell x (b !!! "sequence_length") (b !!! "initial_state")
           else dynamic_rnn_decoder cell (b !!! "decoder_fn") (b !!! "sequence_length"))
      (fun r =>
    pbind (lift (truthy (b !!! "return_final_state"))) (fun final =>
    if final : bool then Ret (snd r) else Ret (fst r)))))).
Proof. intros Hb. unfold recurrent_layer_func, def, fn_call. rewrite Hb. reflexivity. Qed.

(** X7: with a [decoder_fn], [recurrent_layer] hands the decoder
    [inputs=None]: the input tensor of the layer is not used, and the layer
    behaves the same on every input. *)
Theorem recurrent_layer_decoder_ignores_input (x x' : tensor) (a : list pyval)
    (k b opts : gmap string pyval) :
  bind_call recurrent_layer_params true a k = Ok (b, opts) ->
  is_none (b !!! "decoder_fn") = false ->
  fn_call recurrent_layer_func x a k = fn_call recurrent_layer_func x' a k.
Proof.
  intros Hb Hd. rewrite !(recurrent_fn_call _ a k b opts Hb), Hd. reflexivity.
Qed.

Lemma recurrent_layer_decoder_ignores_input_witness :
  is_ok (bind_call recurrent_layer_params true []
           {["decoder_fn" := PFunc "decoder_fn_train"]}) = true
  /\ fn_call recurrent_layer_func example_ids []
       {["decoder_fn" := PFunc "decoder_fn_train"]}
     = fn_call recurrent_layer_func example_embedded []
         {["decoder_fn" := PFunc "decoder_fn_train"]}.
Proof.
  split; [reflexivity|].
  destruct (bind_call recurrent_layer_params true []
              {["decoder_fn" := PFunc "decoder_fn_train"]}) as [[b opts]|e] eqn:Hb;
    [|discriminate].
  apply (recurrent_layer_decoder_ignores_input _ _ _ _ b opts Hb).
  vm_compute in Hb. injection Hb as <- _. reflexivity.
Defined.

(** X8: when [recurrent_layer] is given a non-empty [name], every run of it
    - the first as well as every later one - appends its cell (wrapped for
    dropout or not) to the collection of that name, also when the recurrence
    then raises; without a [name] it leaves the collections alone. *)
Theorem recurrent_layer_collects_cell (x : tensor) (a : list pyval)
    (k b opts : gmap string pyval) (cell : pyval) (scope : string) (reuse : bool)
    (g : Graph) :
  bind_call recurrent_layer_params true a k = Ok (b, opts) ->
  recurrent_layer_cell b = Ret cell ->
  (forall n, opts !! "name" = Some (PStr n) -> n <> "" ->
     collections (snd (run scope reuse (fn_call recurrent_layer_func x a k) g))
     = collections g ++ [(PStr n, cell)])
  /\ (opts !! "name" = None ->
      collections (snd (run scope reuse (fn_call recurrent_layer_func x a k) g))
      = collections g).
Proof.
  intros Hb Hc. rewrite (recurrent_fn_call x a k b opts Hb), Hc.
  assert (Hrest : forall g',
            collections
              (snd (run scope reuse
                      (pbind (if is_none (b !!! "decoder_fn")
                              then dynamic_rnn cell x (b !!! "sequence_length")
                                     (b !!! "initial_state")
                              else dynamic_rnn_decoder cell (b !!! "decoder_fn")
                                     (b !!! "sequence_length"))
                         (fun r =>
                            pbind (lift (truthy (b !!! "return_final_state")))
                              (fun final : bool =>
                                 if final then Ret (snd r) else Ret (fst r)))) g'))
            = collections g').
  { intros g'. apply only_variables_run. apply only_variables_bind.
    - destruct (is_none _);
        [apply only_variables_dynamic_rnn|apply only_variables_dynamic_rnn_decoder].
    - intros r. apply only_variables_bind; [apply only_variables_lift|].
      intros []; constructor. }
  split.
  - intros n Hn Hne. simpl. rewrite Hn. simpl.
    assert (He : String.eqb n "" = false) by (apply String.eqb_neq; exact Hne).
    rewrite He. simpl. rewrite Hrest. reflexivity.
  - intros Hn. simpl. rewrite Hn. simpl. apply Hrest.
Qed.

Lemma recurrent_layer_collects_cell_witness :
  bind_call recurrent_layer_params true [] {["name" := PStr "encoder"]}
  = Ok (fst (default_bound_recurrent), {["name" := PStr "encoder"]})
  /\ recurrent_layer_cell (fst default_bound_recurrent) = Ret default_cell
  /\ collections
       (snd (run "encoder" false
               (fn_call recurrent_layer_func example_embedded []
                  {["name" := PStr "encoder"]}) empty_graph))
     = [(PStr "encoder", default_cell)].
Proof.
  assert (Hb : bind_call recurrent_layer_params true [] {["name" := PStr "encoder"]}
               = Ok (fst (default_bound_recurrent), {["name" := PStr "encoder"]}))
    by reflexivity.
  assert (Hc : recurrent_layer_cell (fst default_bound_recurrent) = Ret default_cell)
    by reflexivity.
  split; [exact Hb|]. split; [exact Hc|].
  exact (proj1 (recurrent_layer_collects_cell example_embedded [] _ _ _ default_cell
                  "encoder" false empty_graph Hb Hc) "encoder" eq_refl
           ltac:(discriminate)).
Defined.

(** ** The graph only grows *)















(** ** The log *)




(** ** The mean loss *)





(** ** Instances are independent *)

(** X12: invoking one instance leaves every other instance and its template
    exactly as they were: no attribute of another instance changes, and
    another instance's template does not come to count as having its
    variables created. *)
Theorem invocation_leaves_other_instances (self other : nat) (x : tensor)
    (w : World) (l : Layer) (t : Template) :
  well_formed w -> other <> self ->
  layers w !! self = Some l -> templates w !! _template l = Some t ->
  layers (snd (Layer.__call__ other x w)) !! self = Some l
  /\ templates (snd (Layer.__call__ other x w)) !! _template l = Some t
  /\ fst (Layer.get_variables_in_scope self (snd (Layer.__call__ other x w)))
     = match fst (Layer.get_variables_in_scope self w) with
       | Ok _ =>
           Ok (Layer.get_collection_trainable
                 (graph (snd (Layer.__call__ other x w))) (t_variable_scope t))
       | Raise e => Raise e
       end.
Proof.
  intros Hw Hne Hl Ht.
  assert (Hl' : layers (snd (Layer.__call__ other x w)) !! self = Some l)
    by (rewrite call_layers_other; assumption).
  assert (Ht' : templates (snd (Layer.__call__ other x w)) !! _template l = Some t)
    by (eapply call_templates_other; eassumption).
  split; [exact Hl'|]. split; [exact Ht'|].
  rewrite (get_variables_in_scope_unfold _ _ _ _ Hl' Ht'),
    (get_variables_in_scope_unfold _ _ _ _ Hl Ht).
  destruct (t_variables_created t); reflexivity.
Qed.

Lemma invocation_leaves_other_instances_witness :
  well_formed two_dense_world
  /\ layers (snd (Layer.__call__ 1 example_ids two_dense_world)) !! 0%nat
     = layers two_dense_world !! 0%nat.
Proof.
  assert (Hw : well_formed two_dense_world).
  { apply well_formed_init. apply well_formed_init. apply well_formed_empty. }
  split; [exact Hw|].
  assert (Hl : layers two_dense_world !! 0%nat
               = Some (mkLayer dense_layer_func [PInt 7] {["summary" := PBool true]}
                         (PStr "dense_layer") 0 "dense_layer" false)) by reflexivity.
  assert (Ht : templates two_dense_world !! 0%nat
               = Some (mkTemplate "dense_layer" dense_layer_func "dense_layer" false))
    by reflexivity.
  rewrite Hl.
  exact (proj1 (invocation_leaves_other_instances 0 1 example_ids two_dense_world _ _
                  Hw ltac:(discriminate) Hl Ht)).
Defined.

(** ** Scopes of the instances *)






(** ** Construction *)

(** X14: constructing an instance succeeds exactly when its name - the
    [name] keyword when present, even if it is None, and the function's name
    otherwise - is a string; a failed construction leaves the world as it
    was, without a template, an instance or an open scope. *)
Theorem construction_needs_a_string_name (f : layer_fn) (a : list pyval)
    (k : gmap string pyval) (w : World) :
  (is_ok (fst (layer f a k w)) = true
   <-> exists s, default (PStr (fn_name f)) (k !! "name") = PStr s)
  /\ (is_ok (fst (layer f a k w)) = false -> snd (layer f a k w) = w)
  /\ (k !! "name" = Some PNone -> raises (fst (layer f a k w)) ValueError).
Proof.
  unfold layer. split; [split|split].
  - intros Hok. destruct (Layer.__init__ f a k w) as [[self|e] w'] eqn:Hi;
      [|discriminate].
    destruct (init_ok_inv _ _ _ _ _ _ Hi) as (s & Hn & _). eauto.
  - intros [s Hn]. rewrite (init_unfold _ _ _ _ _ Hn). reflexivity.
  - intros Hr. destruct (Layer.__init__ f a k w) as [[self|e] w'] eqn:Hi;
      [discriminate|].
    simpl. eapply init_raise_world. eassumption.
  - intros Hn. unfold Layer.__init__, mbind'. rewrite Hn. reflexivity.
Qed.

(** ** Unique names *)

Lemma after_last_slash_spec (s t : string) :
  after_last_slash s = Some t ->
  has_slash t = false /\ exists p, s = p +:+ "/" +:+ t.
Proof.
  revert t; induction s as [|c r IH]; intros t; simpl; [discriminate|].
  destruct (after_last_slash r) as [u|] eqn:Hr.
  - intros [= <-]. destruct (IH u eq_refl) as (Hu & p & ->).
    split; [exact Hu|]. exists (String c p). reflexivity.
  - destruct (Ascii.eqb c "/"%char) eqn:Hc; [|discriminate].
    intros [= <-]. apply Ascii.eqb_eq in Hc. subst c. split.
    + clear IH. induction r as [|c r IHr]; [reflexivity|]. simpl in *.
      destruct (after_last_slash r); [discriminate|].
      destruct (Ascii.eqb c "/"%char); [discriminate|]. simpl. apply IHr. reflexivity.
    + exists "". reflexivity.
Qed.

Lemma after_last_slash_none (s : string) :
  after_last_slash s = None -> has_slash s = false.
Proof.
  induction s as [|c r IH]; simpl; [reflexivity|].
  destruct (after_last_slash r); [discriminate|].
  destruct (Ascii.eqb c "/"%char); [discriminate|]. intros _. simpl. apply IH.
  reflexivity.
Qed.

(** X15: the unique name of an instance is the part of its template's scope
    name after the last "/": it contains no "/", and it is the whole scope
    name when that contains none. *)
Theorem unique_name_is_last_scope_segment (f : layer_fn) (a : list pyval)
    (k : gmap string pyval) (w0 : World) (self : nat) (w : World) :
  layer f a k w0 = (Ok self, w) ->
  exists l t,
    layers w !! self = Some l /\ templates w !! _template l = Some t
    /\ has_slash (_unique_name l) = false
    /\ (t_variable_scope t = _unique_name l
        \/ exists p, t_variable_scope t = p +:+ "/" +:+ _unique_name l).
Proof.
  intros Hi. destruct (init_ok_inv _ _ _ _ _ _ Hi) as (s & Hn & -> & ->).
  eexists _, _. split; [apply init_world_layer|]. split; [apply init_world_template|].
  simpl. unfold split_last.
  destruct (after_last_slash (_get_unique_variable_scope (graph w0) s)) as [u|] eqn:Hu;
    simpl.
  - destruct (after_last_slash_spec _ _ Hu) as (Hs & p & Hp). eauto.
  - split; [apply after_last_slash_none; exact Hu|]. auto.
Qed.

Lemma unique_name_is_last_scope_segment_witness :
  layer identity_layer_func [] {["name" := PStr "encoder/input"]} empty_world
  = (Ok 0%nat, snd (identity_layer [] {["name" := PStr "encoder/input"]} empty_world))
  /\ _unique_name
       <$> layers (snd (identity_layer [] {["name" := PStr "encoder/input"]}
                          empty_world)) !! 0%nat
     = Some "input".
Proof.
  assert (Hi : layer identity_layer_func [] {["name" := PStr "encoder/input"]}
                 empty_world
               = (Ok 0%nat,
                  snd (identity_layer [] {["name" := PStr "encoder/input"]} empty_world)))
    by reflexivity.
  split; [exact Hi|].
  destruct (unique_name_is_last_scope_segment _ _ _ _ _ _ Hi) as (l & t & Hl & _).
  reflexivity.
Defined.

(** ** Summaries before the first invocation *)

(** X16: on an instance made with a truthy [summary] that has not been
    invoked yet, calling [_add_summary] directly raises the AssertionError
    of [get_variables_in_scope] and changes nothing: no summary is added and
    the instance does not count as summarized. *)
Theorem add_summary_before_invocation_raises (f : layer_fn) (a : list pyval)
    (k : gmap string pyval) (w0 : World) (self : nat) (w : World) :
  well_formed w0 ->
  layer f a k w0 = (Ok self, w) ->
  truthy (default PNone (k !! "summary")) = Ok true ->
  forall w1, rtc (step_uninvoked self) w w1 ->
    Layer._add_summary self w1
    = (Raise (Exn AssertionError "Variables not yet created or undefined."), w1).
Proof.
  intros Hw Hi Htr w1 Hun.
  destruct (init_ok_inv _ _ _ _ _ _ Hi) as (s & Hn & -> & ->).
  destruct (uninvoked_keeps _ _ _ _ _ Hun (well_formed_init_world f a k s w0 Hw)
              (init_world_layer f a k s w0) (init_world_template f a k s w0))
    as (_ & Hl1 & Ht1).
  rewrite (add_summary_unfold _ _ _ _ Hl1 Ht1). unfold add_summary_result. simpl.
  rewrite Htr. reflexivity.
Qed.

Lemma add_summary_before_invocation_raises_witness :
  well_formed empty_world
  /\ layer dense_layer_func [PInt 7] {["summary" := PBool true]} empty_world
     = (Ok 0%nat, dense_world)
  /\ Layer._add_summary 0 dense_world
     = (Raise (Exn AssertionError "Variables not yet created or undefined."), dense_world).
Proof.
  assert (Hi : layer dense_layer_func [PInt 7] {["summary" := PBool true]} empty_world
               = (Ok 0%nat, dense_world)) by reflexivity.
  split; [exact well_formed_empty|]. split; [exact Hi|].
  exact (add_summary_before_invocation_raises _ _ _ _ _ _ well_formed_empty Hi eq_refl
           dense_world (rtc_refl _ _)).
Defined.

(** ** Which variables count as in scope *)



